(** * loompy.normalize: attribute values on their way to and from a Loom file

    A shallow embedding of [loompy/normalize.py] and of the parts of Python,
    numpy and scipy.sparse that it calls, followed by the properties of the
    two pipelines [normalize_attr_values] (write path) and
    [materialize_attr_values] (read path).

    Layout:
    - [Text]: str and bytes values, the ASCII codec with its error handlers,
      [html.unescape];
    - [PyFloat]: the text Python prints for a float;
    - [Py]: Python objects, numpy dtypes and arrays, the numpy calls of the
      source, the outcome of a call (a value or an exception, and the log
      records);
    - [Loom]: the four functions of the source, line by line;
    - [Spec]: the vocabulary of the properties and the sample values;
    - the properties: the library on examples, helper lemmas, the claims
      C1 to C10, their instances and counterexamples; further properties
      X1 to X18 of the two pipelines, and their instances.

    Two things that the program calls are parameters of the model: the text
    that numpy and scipy print for an array, a matrix or a sparse matrix
    ([container_str]), and the table of named character references of
    [html.entities] ([html5]). *)

From Stdlib Require Import String Ascii Strings.Byte.
From Stdlib Require Import ZArith NArith List Bool Lia.
From Stdlib Require Import Floats.SpecFloat.
From Stdlib Require DecimalN.
Import ListNotations.

Set Implicit Arguments.

(* ------------------------------------------------------------------------- *)
(** ** Text and bytes *)

Module Text.

(** A [str] is the list of its code points, a [bytes] the list of its bytes. *)
Definition text := list N.
Definition bytes := list byte.

(** Literals: a Rocq string whose characters are all ASCII, read as a [str]
    or as a [bytes]. *)
Definition bts (s : string) : bytes := list_byte_of_string s.
Definition txt (s : string) : text := map Byte.to_N (bts s).

Definition is_ascii (c : N) : bool := (c <? 128)%N.
Definition ascii_text (s : text) : bool := forallb is_ascii s.

Fixpoint uint_text (u : Decimal.uint) : text :=
  match u with
  | Decimal.Nil => []
  | Decimal.D0 u => 48 :: uint_text u
  | Decimal.D1 u => 49 :: uint_text u
  | Decimal.D2 u => 50 :: uint_text u
  | Decimal.D3 u => 51 :: uint_text u
  | Decimal.D4 u => 52 :: uint_text u
  | Decimal.D5 u => 53 :: uint_text u
  | Decimal.D6 u => 54 :: uint_text u
  | Decimal.D7 u => 55 :: uint_text u
  | Decimal.D8 u => 56 :: uint_text u
  | Decimal.D9 u => 57 :: uint_text u
  end%N.

(** [str(n)] for a natural number, [str(z)] for an [int]. *)
Definition dec_of_N (n : N) : text := uint_text (N.to_uint n).
Definition dec_of_Z (z : Z) : text :=
  match z with
  | Zneg p => 45%N :: dec_of_N (Npos p)
  | _ => dec_of_N (Z.to_N z)
  end.

(** The byte of a code point below 256. *)
Definition byte_of (c : N) : byte :=
  match Byte.of_N c with Some b => b | None => x00 end.

(** [s.encode('ascii', 'xmlcharrefreplace')]: a character outside the 7-bit
    range becomes the decimal reference [&#N;]. *)
Definition xmlcharref (c : N) : text := (38 :: 35 :: dec_of_N c ++ [59])%N.
Definition encode_char_xml (c : N) : bytes :=
  if is_ascii c then [byte_of c] else map byte_of (xmlcharref c).
Definition encode_xmlcharrefreplace (s : text) : bytes :=
  flat_map encode_char_xml s.

(** [s.encode('ascii')] and [b.decode('ascii')], both strict: [None] stands
    for UnicodeEncodeError and UnicodeDecodeError. *)
Definition encode_ascii (s : text) : option bytes :=
  if ascii_text s then Some (map byte_of s) else None.
Definition decode_ascii (b : bytes) : option text :=
  let s := map Byte.to_N b in
  if ascii_text s then Some s else None.

(** [b.decode('ascii', 'ignore')]: bytes outside the 7-bit range are dropped. *)
Definition decode_ascii_ignore (b : bytes) : text :=
  filter is_ascii (map Byte.to_N b).

(** numpy stores an 'S' or 'U' element padded with NULs up to the item size
    and gives it back without the trailing NULs. *)
Definition rstrip_nul {A} (is_nul : A -> bool) (s : list A) : list A :=
  fold_right (fun c acc =>
                match acc with
                | [] => if is_nul c then [] else [c]
                | _ => c :: acc
                end) [] s.
Definition strip_text (s : text) : text := rstrip_nul (N.eqb 0) s.
Definition strip_bytes (b : bytes) : bytes := rstrip_nul (Byte.eqb x00) b.

(** [b.replace(old, b'')] for a two-byte [old]: the occurrences are removed
    from left to right, without overlap.  [skip] says that the byte at the
    head is the second byte of an occurrence just found. *)
Fixpoint remove_pair (skip : bool) (o1 o2 : byte) (b : bytes) : bytes :=
  match b with
  | [] => []
  | x :: t =>
      if skip then remove_pair false o1 o2 t
      else match t with
           | y :: _ =>
               if Byte.eqb x o1 && Byte.eqb y o2
               then remove_pair true o1 o2 t
               else x :: remove_pair false o1 o2 t
           | [] => [x]
           end
  end.

(** *** html.unescape

    CPython's [html.unescape]: the regular expression
    [&(#[0-9]+;?|#[xX][0-9a-fA-F]+;?|[^\t\n\f <&#;]{1,32};?)] is applied
    from left to right and every match is replaced by [_replace_charref]. *)

Definition is_digit (c : N) : bool := ((48 <=? c) && (c <=? 57))%N.
Definition is_hexdigit (c : N) : bool :=
  (is_digit c || ((65 <=? c) && (c <=? 70)) || ((97 <=? c) && (c <=? 102)))%N.
(** The characters of a named reference: none of tab, newline, form feed,
    space, [<], [&], [#], [;]. *)
Definition is_name_char (c : N) : bool :=
  negb (existsb (N.eqb c) [9; 10; 12; 32; 60; 38; 35; 59]%N).

(** The longest prefix of at most [n] characters that satisfy [p]. *)
Fixpoint take_while (n : nat) (p : N -> bool) (s : text) : text :=
  match n, s with
  | S k, c :: r => if p c then c :: take_while k p r else []
  | _, _ => []
  end.

(** An optional [;] after the prefix [g] of [s]. *)
Definition with_semicolon (g s : text) : text :=
  match skipn (length g) s with
  | 59%N :: _ => g ++ [59%N]
  | _ => g
  end.

(** Group 1 of the expression matched just after a [&]: the alternatives in
    their order, each quantifier greedy. *)
Definition match_charref (s : text) : option text :=
  match s with
  | 35%N :: r =>
      match take_while (length r) is_digit r with
      | (_ :: _) as ds => Some (with_semicolon (35%N :: ds) s)
      | [] =>
          match r with
          | x :: r' =>
              if (x =? 120)%N || (x =? 88)%N then
                match take_while (length r') is_hexdigit r' with
                | (_ :: _) as hs => Some (with_semicolon (35%N :: x :: hs) s)
                | [] => None
                end
              else None
          | [] => None
          end
      end
  | _ =>
      match take_while 32 is_name_char s with
      | (_ :: _) as nm => Some (with_semicolon nm s)
      | [] => None
      end
  end.

Definition digit_val (c : N) : N :=
  (if is_digit c then c - 48
   else if (97 <=? c) then c - 87
   else c - 55)%N.
(** [int(s, base)] on a run of digits of that base. *)
Definition int_of (base : N) (s : text) : N :=
  fold_left (fun acc c => (acc * base + digit_val c)%N) s 0%N.

(** [s.rstrip(';')]. *)
Definition rstrip_semicolon (s : text) : text := rstrip_nul (N.eqb 59) s.

(** [html._invalid_charrefs]: the references that HTML 5 reads as
    Windows-1252. *)
Definition invalid_charrefs (n : N) : option N :=
  match n with
  | 0x00 => Some 0xFFFD | 0x0D => Some 0x0D
  | 0x80 => Some 0x20AC | 0x81 => Some 0x81 | 0x82 => Some 0x201A
  | 0x83 => Some 0x0192 | 0x84 => Some 0x201E | 0x85 => Some 0x2026
  | 0x86 => Some 0x2020 | 0x87 => Some 0x2021 | 0x88 => Some 0x02C6
  | 0x89 => Some 0x2030 | 0x8A => Some 0x0160 | 0x8B => Some 0x2039
  | 0x8C => Some 0x0152 | 0x8D => Some 0x8D | 0x8E => Some 0x017D
  | 0x8F => Some 0x8F | 0x90 => Some 0x90 | 0x91 => Some 0x2018
  | 0x92 => Some 0x2019 | 0x93 => Some 0x201C | 0x94 => Some 0x201D
  | 0x95 => Some 0x2022 | 0x96 => Some 0x2013 | 0x97 => Some 0x2014
  | 0x98 => Some 0x02DC | 0x99 => Some 0x2122 | 0x9A => Some 0x0161
  | 0x9B => Some 0x203A | 0x9C => Some 0x0153 | 0x9D => Some 0x9D
  | 0x9E => Some 0x017E | 0x9F => Some 0x0178
  | _ => None
  end%N.

(** [html._invalid_codepoints]: control characters and non-characters. *)
Definition invalid_codepoint (n : N) : bool :=
  (((0x1 <=? n) && (n <=? 0x8)) || ((0xE <=? n) && (n <=? 0x1F))
   || ((0x7F <=? n) && (n <=? 0x9F)) || ((0xFDD0 <=? n) && (n <=? 0xFDEF))
   || (n =? 0xB)
   || ((n <=? 0x10FFFF) && (0xFFFE <=? N.land n 0xFFFF)))%N.

Section Unescape.

(** [html.entities.html5], the table of the named references (keys without
    the [&], most of them with their [;]).  The table belongs to the Python
    distribution; the development holds for any table. *)
Variable html5 : text -> option text.

(** The loop of [_replace_charref] that looks for the longest prefix
    [s[:x]], [x] from [len(s)-1] down to 2, that is a key of the table.
    [n] counts down from the first [x]. *)
Fixpoint longest_name (s : text) (n : nat) : option text :=
  match n with
  | 0 | 1 => None
  | S k =>
      match html5 (firstn n s) with
      | Some v => Some (v ++ skipn n s)
      | None => longest_name s k
      end
  end.

(** [html._replace_charref] on group 1 of a match. *)
Definition replace_charref (s : text) : text :=
  match s with
  | 35%N :: r =>
      let num :=
        match r with
        | x :: r' =>
            if (x =? 120)%N || (x =? 88)%N
            then int_of 16 (rstrip_semicolon r')
            else int_of 10 (rstrip_semicolon r)
        | [] => 0%N
        end in
      match invalid_charrefs num with
      | Some c => [c]
      | None =>
          if ((0xD800 <=? num) && (num <=? 0xDFFF) || (0x10FFFF <? num))%N
          then [0xFFFD%N]
          else if invalid_codepoint num then []
          else [num]
      end
  | _ =>
      match html5 s with
      | Some v => v
      | None =>
          match longest_name s (length s - 1) with
          | Some v => v
          | None => 38%N :: s
          end
      end
  end.

(** [_charref.sub(_replace_charref, s)].  [skip] is the number of characters
    of the current match that are still to be passed over. *)
Fixpoint sub_charref (skip : nat) (s : text) : text :=
  match s with
  | [] => []
  | c :: r =>
      match skip with
      | S k => sub_charref k r
      | O =>
          if (c =? 38)%N then
            match match_charref r with
            | Some g => replace_charref g ++ sub_charref (length g) r
            | None => c :: sub_charref 0 r
            end
          else c :: sub_charref 0 r
      end
  end.

(** [html.unescape(s)]. *)
Definition unescape (s : text) : text :=
  if existsb (N.eqb 38) s then sub_charref 0 s else s.

End Unescape.

End Text.

(* ------------------------------------------------------------------------- *)
(** ** The text of a float

    Python's [float] is an IEEE 754 binary64 number, here a [spec_float] of
    the Standard Library with precision 53.  [repr] (and [str]) of a float
    gives the shortest decimal numeral that reads back as the same float,
    laid out by [float_repr_style = 'short']. *)

Module PyFloat.
Import Text.
Local Open Scope Z_scope.

Definition prec : Z := 53.
Definition emax : Z := 1024.

(** [float(z)] for an [int] within the range of the type. *)
Definition of_Z (z : Z) : spec_float := binary_normalize prec emax z 0 false.

(** The float nearest to [d * 10^k], ties to even: what Python reads from the
    numeral [d]e[k]. *)
Definition of_decimal (d k : Z) : spec_float :=
  match d, k with
  | Z0, _ => S754_zero false
  | _, Zneg p =>
      SFdiv prec emax (S754_finite (d <? 0) (Z.to_pos (Z.abs d)) 0)
        (S754_finite false (Pos.pow 10 p) 0)
  | _, _ => binary_normalize prec emax (d * 10 ^ k) 0 false
  end.

Definition float_eqb (x y : spec_float) : bool :=
  match x, y with
  | S754_zero s, S754_zero t => Bool.eqb s t
  | S754_infinity s, S754_infinity t => Bool.eqb s t
  | S754_nan, S754_nan => true
  | S754_finite s m e, S754_finite t n f =>
      Bool.eqb s t && Pos.eqb m n && Z.eqb e f
  | _, _ => false
  end.

(** The number of decimal digits of a positive integer. *)
Definition ndigits (z : Z) : Z := Z.of_nat (length (dec_of_Z z)).

(** The decimal exponent [E] of the positive rational [num/den]:
    [10^E <= num/den < 10^(E+1)].  Below one, [num] is multiplied by ten
    until the quotient reaches one. *)
Fixpoint scale_up (fuel : nat) (num den j : Z) : Z :=
  match fuel with
  | O => j
  | S f => if den <=? num then j else scale_up f (num * 10) den (j - 1)
  end.
Definition dec_exponent (num den : Z) : Z :=
  if den <=? num then ndigits (num / den) - 1
  else scale_up (S (Z.to_nat (Z.log2 den))) num den 0.

(** The quotient and the remainder of [num/den / 10^k]. *)
Definition scaled (num den k : Z) : Z * Z * Z :=
  let '(n', d') := if 0 <=? k then (num, den * 10 ^ k)
                   else (num * 10 ^ (- k), den) in
  (n' / d', n' mod d', d').

(** The shortest numeral: for 1, 2, ... digits, the two numerals with that
    many digits that enclose the value; the first length at which one of
    them reads back as [x] wins, the nearer one when both do. *)
Fixpoint shortest (fuel : nat) (x : spec_float) (num den E n : Z) : Z * Z :=
  let k := E - (n - 1) in
  let '(lo, r, d') := scaled num den k in
  match fuel with
  | O => (lo, k)
  | S f =>
      let ok_lo := float_eqb (of_decimal lo k) x in
      let ok_hi := float_eqb (of_decimal (lo + 1) k) x in
      if r =? 0 then
        if ok_lo then (lo, k) else shortest f x num den E (n + 1)
      else if ok_lo && ok_hi then
        match 2 * r ?= d' with
        | Lt => (lo, k)
        | Gt => (lo + 1, k)
        | Eq => if Z.even lo then (lo, k) else (lo + 1, k)
        end
      else if ok_lo then (lo, k)
      else if ok_hi then (lo + 1, k)
      else shortest f x num den E (n + 1)
  end.

(** The digits of the shortest numeral of [m * 2^e], trailing zeros removed,
    and the position of the decimal point counted from their left end. *)
Definition digits_of (m : positive) (e : Z) : text * Z :=
  let '(num, den) := if 0 <=? e then (Zpos m * 2 ^ e, 1)
                     else (Zpos m, 2 ^ (- e)) in
  let E := dec_exponent num den in
  let '(d, k) := shortest 17 (S754_finite false m e) num den E 1 in
  let ds := dec_of_Z d in
  (rstrip_nul (N.eqb 48) ds, Z.of_nat (length ds) + k).

Definition zeros (n : Z) : text := repeat 48%N (Z.to_nat n).

(** The layout of [PyOS_double_to_string] for the format code ['r']:
    exponent notation when the decimal point is further than 16 places to
    the right or 4 to the left.  [dot0] is the flag [Py_DTSF_ADD_DOT_0]. *)
Definition layout (dot0 : bool) (ds : text) (decpt : Z) : text :=
  let nd := Z.of_nat (length ds) in
  if (decpt <=? -4) || (16 <? decpt) then
    let ex := decpt - 1 in
    let exd := dec_of_Z (Z.abs ex) in
    (firstn 1 ds
       ++ (match skipn 1 ds with [] => [] | fr => 46%N :: fr end)
       ++ [101%N; if ex <? 0 then 45%N else 43%N]
       ++ (match exd with [_] => 48%N :: exd | _ => exd end))%list
  else if decpt <=? 0 then
    (txt "0." ++ zeros (- decpt) ++ ds)%list
  else if nd <=? decpt then
    (ds ++ zeros (decpt - nd) ++ (if dot0 then txt ".0" else []))%list
  else
    (firstn (Z.to_nat decpt) ds ++ 46%N :: skipn (Z.to_nat decpt) ds)%list.

(** [PyOS_double_to_string(x, 'r', 0, flags, NULL)]; [plus] is the flag
    [Py_DTSF_SIGN]. *)
Definition to_string (dot0 plus : bool) (x : spec_float) : text :=
  let sign (s : bool) : text :=
    if s then [45%N] else if plus then [43%N] else [] in
  match x with
  | S754_zero s => (sign s ++ layout dot0 [48%N] 1)%list
  | S754_infinity s => (sign s ++ txt "inf")%list
  | S754_nan => (sign false ++ txt "nan")%list
  | S754_finite s m e =>
      let '(ds, decpt) := digits_of m e in (sign s ++ layout dot0 ds decpt)%list
  end.

(** [repr(x)] and [str(x)] of a float. *)
Definition float_repr (x : spec_float) : text := to_string true false x.

(** [repr(z)] of a complex number: a real part that is [+0.0] is left out. *)
Definition complex_repr (re im : spec_float) : text :=
  match re with
  | S754_zero false => (to_string false false im ++ [106%N])%list
  | _ =>
      (40%N :: to_string false false re ++ to_string false true im
         ++ [106%N; 41%N])%list
  end.

End PyFloat.

(* ------------------------------------------------------------------------- *)
(** ** Python objects and numpy arrays *)

Module Py.
Import Text.

(** *** Exceptions, log records and the outcome of a call *)

Inductive exn :=
| ValueError (msg : string)
| TypeError
| AttributeError
| IndexError
| OverflowError
| UnicodeEncodeError
| UnicodeDecodeError.

(** A record handed to the [logging] module, with its level. *)
Inductive log_record :=
| Debug (msg : text).

Inductive res (A : Type) :=
| Ok (a : A)
| Raise (e : exn).
Arguments Ok {A} a.
Arguments Raise {A} e.

(** A call returns a value or raises, and leaves the records it logged. *)
Definition M (A : Type) : Type := list log_record * res A.

Definition ret {A} (a : A) : M A := ([], Ok a).
Definition raise {A} (e : exn) : M A := ([], Raise e).
Definition lift {A} (r : res A) : M A := ([], r).
Definition logging_debug (msg : text) : M unit := ([Debug msg], Ok tt).
Definition bind {A B} (m : M A) (k : A -> M B) : M B :=
  match m with
  | (l, Ok a) => let '(l', r) := k a in (l ++ l', r)
  | (l, Raise e) => (l, Raise e)
  end.
(** [try: m  except: h] with a bare [except]. *)
Definition try_except {A} (m : M A) (h : M A) : M A :=
  match m with
  | (l, Raise _) => let '(l', r) := h in (l ++ l', r)
  | _ => m
  end.

Definition logs {A} (m : M A) : list log_record := fst m.
Definition result {A} (m : M A) : res A := snd m.
Definition raises {A} (m : M A) : bool :=
  match result m with Raise _ => true | Ok _ => false end.

Declare Scope py_scope.
Delimit Scope py_scope with py.
Notation "x <- m ;; k" := (bind m (fun x => k))
  (at level 61, m at next level, right associativity) : py_scope.
Notation "m ;;; k" := (bind m (fun _ => k))
  (at level 61, right associativity) : py_scope.
Local Open Scope py_scope.

Definition res_bind {A B} (r : res A) (k : A -> res B) : res B :=
  match r with Ok a => k a | Raise e => Raise e end.

(** A list comprehension whose body may raise: the first exception ends it. *)
Fixpoint map_res {A B} (f : A -> res B) (l : list A) : res (list B) :=
  match l with
  | [] => Ok []
  | x :: r =>
      res_bind (f x) (fun y => res_bind (map_res f r) (fun ys => Ok (y :: ys)))
  end.

Definition of_option {A} (e : exn) (o : option A) : res A :=
  match o with Some a => Ok a | None => Raise e end.

(** *** dtypes

    The element types that numpy gives to Python values of its own accord,
    and [uint8], the target of [astype('ubyte')].  The program looks at the
    kind of a dtype only, never at its item size; the other item sizes of
    the integer, floating and complex kinds, and the kinds datetime64,
    timedelta64 and void, are left out. *)

Inductive intkind := U8 | I64 | U64.

Inductive dtype :=
| dt_bool
| dt_int (k : intkind)
| dt_float
| dt_complex
| dt_bytes        (* kind 'S': np.bytes_, alias np.string_ *)
| dt_str          (* kind 'U': np.str_, alias np.unicode_ *)
| dt_object.

Definition intkind_eqb (a b : intkind) : bool :=
  match a, b with U8, U8 | I64, I64 | U64, U64 => true | _, _ => false end.

(** The abstract scalar types that the source passes to [np.issubdtype]. *)
Inductive sctype :=
| np_integer | np_floating | np_character | np_object_ | np_bool_
| np_string_ | np_str_ | np_unicode_.

Definition issubdtype (d : dtype) (t : sctype) : bool :=
  match t, d with
  | np_integer, dt_int _ => true
  | np_floating, dt_float => true
  | np_character, (dt_bytes | dt_str) => true
  | np_object_, dt_object => true
  | np_bool_, dt_bool => true
  | np_string_, dt_bytes => true
  | (np_str_ | np_unicode_), dt_str => true
  | _, _ => false
  end.

(** *** Objects *)

(** The objects that are elements of attribute values: [None], the Python
    scalars, and the numpy scalars of the dtypes above. *)
Inductive pyobj :=
| PyNone
| PyBool (b : bool)
| PyInt (z : Z)
| PyFloat (x : spec_float)
| PyComplex (re im : spec_float)
| PyStr (s : text)
| PyBytes (b : bytes)
| NpBool (b : bool)
| NpInt (k : intkind) (z : Z)
| NpFloat (x : spec_float)
| NpComplex (re im : spec_float)
| NpStr (s : text)
| NpBytes (b : bytes).

(** An [np.ndarray]: its dtype, its shape, and its elements in row-major
    order.  The elements of an array of dtype [object] are any objects,
    those of the other dtypes are the numpy scalars of the dtype, as indexing
    and iteration return them.  An 'S' or 'U' element is held without the
    padding of its item size. *)
Record ndarray := mk_array {
  dtype_of : dtype;
  shape : list nat;
  data : list pyobj
}.

(** The numpy scalars of a dtype; any object is an element of an array of
    dtype [object]. *)
Definition cell_ok (d : dtype) (o : pyobj) : bool :=
  match d, o with
  | dt_object, _ => true
  | dt_bool, NpBool _ => true
  | dt_int j, NpInt k _ => intkind_eqb j k
  | dt_float, NpFloat _ => true
  | dt_complex, NpComplex _ _ => true
  | dt_bytes, NpBytes b =>
      if list_eq_dec Byte.byte_eq_dec (strip_bytes b) b then true else false
  | dt_str, NpStr s =>
      if list_eq_dec N.eq_dec (strip_text s) s then true else false
  | _, _ => false
  end.

(** The number of elements of an array of a given shape. *)
Definition size_of (sh : list nat) : nat := fold_right Nat.mul 1%nat sh.

(** The elements of an array are of its dtype, and as many as its shape
    says. *)
Definition wf_array (a : ndarray) : bool :=
  Nat.eqb (length (data a)) (size_of (shape a))
  && forallb (cell_ok (dtype_of a)) (data a).

(** A scalar or an array: what the store holds for an attribute, what
    indexing an array returns, and what a [for] loop over an array yields
    (the elements, or, when the array has more than one axis, the sub-array
    at each index of the first axis). *)
Inductive npval :=
| Scalar (o : pyobj)
| Nd (a : ndarray).

(** What a name of the program can be bound to. *)
Inductive value :=
| Np (v : npval)
| PyList (l : list pyobj)
| PyTuple (l : list pyobj)
| Matrix (a : ndarray)    (* np.matrix: always two axes *)
| Sparse (a : ndarray)    (* a scipy.sparse matrix, by what todense() holds *)
| Other.                  (* any other object: a dict, a set, a generator *)

Definition Obj (o : pyobj) : value := Np (Scalar o).
Definition Array (a : ndarray) : value := Np (Nd a).

(** The types that the source compares [type(x)] with. *)
Inductive pytype := ty_str | ty_np_str_ | ty_bytes | ty_np_bytes_ | ty_other.

Definition type_of (x : npval) : pytype :=
  match x with
  | Scalar (PyStr _) => ty_str
  | Scalar (NpStr _) => ty_np_str_
  | Scalar (PyBytes _) => ty_bytes
  | Scalar (NpBytes _) => ty_np_bytes_
  | _ => ty_other
  end.

Definition pytype_eqb (a b : pytype) : bool :=
  match a, b with
  | ty_str, ty_str | ty_np_str_, ty_np_str_ | ty_bytes, ty_bytes
  | ty_np_bytes_, ty_np_bytes_ | ty_other, ty_other => true
  | _, _ => false
  end.

(** The text of an object that holds text, whatever its type: Python's [==]
    between a [str] and an [np.str_] compares their characters. *)
Definition text_of (o : pyobj) : option text :=
  match o with
  | PyStr s | NpStr s => Some s
  | _ => None
  end.

(** *** str() *)

Definition hex_digit (n : N) : N := (if n <? 10 then 48 + n else 87 + n)%N.

(** [repr(b)] of a bytes object. *)
Definition bytes_repr (b : bytes) : text :=
  let s := map Byte.to_N b in
  let quote : N :=
    if existsb (N.eqb 39) s && negb (existsb (N.eqb 34) s) then 34%N
    else 39%N in
  let esc (c : N) : text :=
    if (c =? quote)%N || (c =? 92)%N then [92; c]%N
    else if (c =? 9)%N then [92; 116]%N
    else if (c =? 10)%N then [92; 110]%N
    else if (c =? 13)%N then [92; 114]%N
    else if (c <? 32)%N || (127 <=? c)%N
         then [92; 120; hex_digit (c / 16); hex_digit (c mod 16)]%N
    else [c] in
  (98%N :: quote :: flat_map esc s ++ [quote])%list.

Definition bool_str (b : bool) : text := if b then txt "True" else txt "False".

(** [str(o)]. *)
Definition py_str (o : pyobj) : text :=
  match o with
  | PyNone => txt "None"
  | PyBool b | NpBool b => bool_str b
  | PyInt z | NpInt _ z => dec_of_Z z
  | PyFloat x | NpFloat x => PyFloat.float_repr x
  | PyComplex re im | NpComplex re im => PyFloat.complex_repr re im
  | PyStr s | NpStr s => s
  | PyBytes b | NpBytes b => bytes_repr b
  end.

(** [str(type(x))]. *)
Definition cls (n : string) : text := (txt "<class '" ++ txt n ++ txt "'>")%list.
Definition type_name (x : npval) : text :=
  match x with
  | Scalar PyNone => cls "NoneType"
  | Scalar (PyBool _) => cls "bool"
  | Scalar (PyInt _) => cls "int"
  | Scalar (PyFloat _) => cls "float"
  | Scalar (PyComplex _ _) => cls "complex"
  | Scalar (PyStr _) => cls "str"
  | Scalar (PyBytes _) => cls "bytes"
  | Scalar (NpBool _) => cls "numpy.bool_"
  | Scalar (NpInt U8 _) => cls "numpy.uint8"
  | Scalar (NpInt I64 _) => cls "numpy.int64"
  | Scalar (NpInt U64 _) => cls "numpy.uint64"
  | Scalar (NpFloat _) => cls "numpy.float64"
  | Scalar (NpComplex _ _) => cls "numpy.complex128"
  | Scalar (NpStr _) => cls "numpy.str_"
  | Scalar (NpBytes _) => cls "numpy.bytes_"
  | Nd _ => cls "numpy.ndarray"
  end.

(** *** np.array on a list of objects *)

Local Open Scope Z_scope.

Definition in_range (k : intkind) (z : Z) : bool :=
  match k with
  | U8 => (0 <=? z) && (z <? 2 ^ 8)
  | I64 => (- 2 ^ 63 <=? z) && (z <? 2 ^ 63)
  | U64 => (0 <=? z) && (z <? 2 ^ 64)
  end.

(** The dtype numpy finds for one object: a Python [int] is a C long when it
    fits, an unsigned long long when that fits, and an object otherwise. *)
Definition dtype_of_obj (o : pyobj) : dtype :=
  match o with
  | PyNone => dt_object
  | PyBool _ | NpBool _ => dt_bool
  | PyInt z =>
      if in_range I64 z then dt_int I64
      else if in_range U64 z then dt_int U64
      else dt_object
  | NpInt k _ => dt_int k
  | PyFloat _ | NpFloat _ => dt_float
  | PyComplex _ _ | NpComplex _ _ => dt_complex
  | PyStr _ | NpStr _ => dt_str
  | PyBytes _ | NpBytes _ => dt_bytes
  end.

(** [np.promote_types]. *)
Definition promote_types (a b : dtype) : dtype :=
  match a, b with
  | dt_object, _ | _, dt_object => dt_object
  | dt_str, _ | _, dt_str => dt_str
  | dt_bytes, _ | _, dt_bytes => dt_bytes
  | dt_complex, _ | _, dt_complex => dt_complex
  | dt_float, _ | _, dt_float => dt_float
  | dt_int j, dt_int k =>
      match j, k with
      | U8, _ => dt_int k
      | _, U8 => dt_int j
      | I64, I64 => dt_int I64
      | U64, U64 => dt_int U64
      | _, _ => dt_float
      end
  | dt_int k, dt_bool | dt_bool, dt_int k => dt_int k
  | dt_bool, dt_bool => dt_bool
  end.

(** The dtype of [np.array(l)]; an empty list gives float64. *)
Definition result_dtype (l : list pyobj) : dtype :=
  match l with
  | [] => dt_float
  | x :: r => fold_left promote_types (map dtype_of_obj r) (dtype_of_obj x)
  end.

Definition Z_of_bool (b : bool) : Z := if b then 1 else 0.

(** Storing the object [o] into a cell of dtype [d] ([setitem]), read back
    as the numpy scalar of the cell.  A [str] goes into an 'S' cell, and a
    [bytes] into a 'U' cell, through the strict ASCII codec; any other object
    goes into a text cell as its [str()].  For a numeric [d] the objects are
    those whose own dtype promotes to [d]: [np.array] asks for nothing else,
    and [TypeError] marks the other pairs. *)
Definition setitem (d : dtype) (o : pyobj) : res pyobj :=
  match d with
  | dt_object => Ok o
  | dt_bool =>
      match o with
      | PyBool b | NpBool b => Ok (NpBool b)
      | _ => Raise TypeError
      end
  | dt_int k =>
      match o with
      | PyBool b | NpBool b => Ok (NpInt k (Z_of_bool b))
      | PyInt z =>
          if in_range k z then Ok (NpInt k z) else Raise OverflowError
      | NpInt _ z => Ok (NpInt k z)
      | _ => Raise TypeError
      end
  | dt_float =>
      match o with
      | PyBool b | NpBool b => Ok (NpFloat (PyFloat.of_Z (Z_of_bool b)))
      | PyInt z | NpInt _ z => Ok (NpFloat (PyFloat.of_Z z))
      | PyFloat x | NpFloat x => Ok (NpFloat x)
      | _ => Raise TypeError
      end
  | dt_complex =>
      match o with
      | PyBool b | NpBool b =>
          Ok (NpComplex (PyFloat.of_Z (Z_of_bool b)) (S754_zero false))
      | PyInt z | NpInt _ z =>
          Ok (NpComplex (PyFloat.of_Z z) (S754_zero false))
      | PyFloat x | NpFloat x => Ok (NpComplex x (S754_zero false))
      | PyComplex re im | NpComplex re im => Ok (NpComplex re im)
      | _ => Raise TypeError
      end
  | dt_str =>
      match o with
      | PyStr s | NpStr s => Ok (NpStr (strip_text s))
      | PyBytes b | NpBytes b =>
          res_bind (of_option UnicodeDecodeError (decode_ascii b))
            (fun s => Ok (NpStr (strip_text s)))
      | _ => Ok (NpStr (py_str o))
      end
  | dt_bytes =>
      match o with
      | PyBytes b | NpBytes b => Ok (NpBytes (strip_bytes b))
      | PyStr s | NpStr s =>
          res_bind (of_option UnicodeEncodeError (encode_ascii s))
            (fun b => Ok (NpBytes (strip_bytes b)))
      | _ => Ok (NpBytes (map byte_of (py_str o)))
      end
  end.

(** [np.array(l, dtype=d)] and [np.array(l)] for a list of objects. *)
Definition np_array_as (d : dtype) (l : list pyobj) : res ndarray :=
  res_bind (map_res (setitem d) l)
    (fun xs => Ok (mk_array d [length l] xs)).
Definition np_array (l : list pyobj) : res ndarray :=
  np_array_as (result_dtype l) l.

(** [np.isscalar]: the Python scalars and the instances of [np.generic];
    not [None], not an array. *)
Definition np_isscalar (v : value) : bool :=
  match v with
  | Np (Scalar PyNone) => false
  | Np (Scalar _) => true
  | _ => false
  end.

(** *** Indexing and iteration *)

(** The first [n] consecutive blocks of [k] elements. *)
Fixpoint chunks {A} (n k : nat) (l : list A) : list (list A) :=
  match n with
  | O => []
  | S n' => firstn k l :: chunks n' k (skipn k l)
  end.

(** [for x in a]: a 0-d array cannot be iterated. *)
Definition iter_array (a : ndarray) : res (list npval) :=
  match shape a with
  | [] => Raise TypeError
  | [_] => Ok (map Scalar (data a))
  | n :: sh =>
      Ok (map (fun c => Nd (mk_array (dtype_of a) sh c))
            (chunks n (size_of sh) (data a)))
  end.

(** [a[0]]: a 0-d array cannot be indexed, an empty one has no index 0. *)
Definition getitem0 (a : ndarray) : res npval :=
  match iter_array a with
  | Ok (x :: _) => Ok x
  | _ => Raise IndexError
  end.

(** The shape of a matrix. *)
Definition nrows (a : ndarray) : nat := nth 0 (shape a) 0%nat.
Definition ncols (a : ndarray) : nat := nth 1 (shape a) 0%nat.

(** [np.array(m)[0, :]] and [np.array(m)[:, 0]] for a matrix [m]. *)
Definition row0 (m : ndarray) : ndarray :=
  mk_array (dtype_of m) [ncols m] (firstn (ncols m) (data m)).
Definition column0 (m : ndarray) : ndarray :=
  mk_array (dtype_of m) [nrows m]
    (flat_map (firstn 1) (chunks (nrows m) (ncols m) (data m))).

(** The rows that a loop over a matrix yields, each a matrix of one row. *)
Definition matrix_rows (m : ndarray) : list ndarray :=
  map (fun c => mk_array (dtype_of m) [1%nat; ncols m] c)
    (chunks (nrows m) (ncols m) (data m)).

(** *** Casts *)

(** [a.astype('ubyte')], which the program calls on arrays of dtype bool. *)
Definition astype_ubyte (a : ndarray) : ndarray :=
  mk_array (dt_int U8) (shape a)
    (map (fun o => match o with
                   | NpBool b => NpInt U8 (Z_of_bool b)
                   | _ => o
                   end) (data a)).

(** [a.astype(str)] and [a.astype('string_')]: every element is stored into
    a cell of the new dtype; the shape stays. *)
Definition astype (d : dtype) (a : ndarray) : res ndarray :=
  res_bind (map_res (setitem d) (data a))
    (fun xs => Ok (mk_array d (shape a) xs)).

(** The Python object that [astype(object)] and [np.array(a, dtype=object)]
    put in place of a numpy scalar of kind 'U'. *)
Definition to_python (o : pyobj) : pyobj :=
  match o with
  | NpStr s => PyStr s
  | _ => o
  end.

(** [np.array(xs, dtype=object)] for the list [xs] that a comprehension over
    an array has built: objects give a one-dimensional array, sub-arrays of
    one shape are stacked along a new first axis. *)
Definition stack_objects (xs : list npval) : ndarray :=
  match xs with
  | Nd a0 :: _ =>
      mk_array dt_object (length xs :: shape a0)
        (flat_map (fun x => match x with
                            | Nd a => map to_python (data a)
                            | Scalar o => [o]
                            end) xs)
  | _ =>
      mk_array dt_object [length xs]
        (flat_map (fun x => match x with
                            | Scalar o => [o]
                            | Nd a => data a
                            end) xs)
  end.

(** *** Sorting, for np.unique *)

Fixpoint text_leb (a b : text) : bool :=
  match a, b with
  | [], _ => true
  | _ :: _, [] => false
  | x :: a', y :: b' =>
      if (x <? y)%N then true else if (y <? x)%N then false else text_leb a' b'
  end.

Fixpoint insert_unique (x : text) (l : list text) : list text :=
  match l with
  | [] => [x]
  | y :: r =>
      if text_leb x y then (if text_leb y x then l else x :: l)
      else y :: insert_unique x r
  end.

(** [np.unique] on a list of [str]: the sorted array of its distinct
    elements. *)
Definition np_unique (l : list text) : ndarray :=
  let u := fold_right insert_unique [] l in
  mk_array dt_str [length u] (map NpStr u).

End Py.

(* ------------------------------------------------------------------------- *)
(** ** loompy/normalize.py *)

Module Loom.
Import Text Py.
Local Open Scope py_scope.

(** What the local variable [result] of [materialize_attr_values] is bound
    to: [None], an array, or the one-element list of the fallback. *)
Inductive pyresult :=
| RNone
| RArray (a : ndarray)
| RList (l : list pyobj).

Definition value_of_result (r : pyresult) : value :=
  match r with
  | RNone => Obj PyNone
  | RArray a => Array a
  | RList l => PyList l
  end.

(** [result[0]]: [None] cannot be subscripted. *)
Definition subscript0 (r : pyresult) : res npval :=
  match r with
  | RNone => Raise TypeError
  | RArray a => getitem0 a
  | RList (x :: _) => Ok (Scalar x)
  | RList [] => Raise IndexError
  end.

(** [np.string_] and [np.unicode_] are other names of [np.bytes_] and
    [np.str_]. *)
Definition ty_np_string_ : pytype := ty_np_bytes_.
Definition ty_np_unicode_ : pytype := ty_np_str_.

(** [type(x) is t]. *)
Definition type_is (x : npval) (t : pytype) : bool := pytype_eqb (type_of x) t.

(** [x.encode('ascii', 'xmlcharrefreplace')]: only a [str] has the method. *)
Definition encode_xml (x : npval) : res pyobj :=
  match x with
  | Scalar (PyStr s) | Scalar (NpStr s) =>
      Ok (PyBytes (encode_xmlcharrefreplace s))
  | _ => Raise AttributeError
  end.

(** [x.decode('ascii', 'ignore')]: only a [bytes] has the method. *)
Definition decode_ignore (x : npval) : res pyobj :=
  match x with
  | Scalar (PyBytes b) | Scalar (NpBytes b) =>
      Ok (PyStr (decode_ascii_ignore b))
  | _ => Raise AttributeError
  end.

(** [hasattr(a, "decode")] for an [np.ndarray]: the class has no such
    attribute. *)
Definition hasattr_decode (a : ndarray) : bool := false.

(** [b.replace(b'\xc2\xa0', b'')]: the UTF-8 bytes of the no-break space are
    removed. *)
Definition replace_nbsp (b : bytes) : bytes := remove_pair false xc2 xa0 b.

Section Source.

(** [str()] of an array, a matrix or a sparse matrix: numpy's and scipy's
    printers are not part of the program. *)
Variable container_str : value -> text.

(** The named character references of [html.entities]. *)
Variable html5 : text -> option text.

(** [str(x)]. *)
Definition str (v : value) : text :=
  match v with
  | Np (Scalar o) => py_str o
  | _ => container_str v
  end.

(** The message of line 19. *)
Definition mixed_types_message (xs : list npval) : text :=
  (txt "Attribute contains mixed object types ("
     ++ str (Array (np_unique (map type_name xs)))
     ++ txt "); casting all to string")%list.

(** Lines 8-26. *)
Definition normalize_attr_strings (a : ndarray) : M ndarray :=
  if issubdtype (dtype_of a) np_object_ then
    xs <- lift (iter_array a) ;;
    if forallb (fun x => type_is x ty_str || type_is x ty_np_str_
                         || type_is x ty_np_unicode_) xs then
      bs <- lift (map_res encode_xml xs) ;;
      lift (np_array bs)
    else if forallb (fun x => type_is x ty_np_string_) xs
            || forallb (fun x => type_is x ty_np_bytes_) xs then
      lift (astype dt_bytes a)
    else
      logging_debug (mixed_types_message xs) ;;;
      lift (np_array_as dt_bytes (map (fun x => PyStr (str (Np x))) xs))
  else if issubdtype (dtype_of a) np_string_
          || issubdtype (dtype_of a) np_object_ then
    ret a
  else if issubdtype (dtype_of a) np_str_
          || issubdtype (dtype_of a) np_unicode_ then
    xs <- lift (iter_array a) ;;
    bs <- lift (map_res encode_xml xs) ;;
    lift (np_array bs)
  else
    raise (ValueError "String values must be object, ascii or unicode.").

(** Lines 35-41, the branch of an [np.matrix]. *)
Definition normalize_matrix (a : ndarray) : res ndarray :=
  if Nat.eqb (nrows a) 1 then Ok (row0 a)
  else if Nat.eqb (ncols a) 1 then Ok (column0 a)
  else Raise (ValueError "Attribute values must be 1-dimensional.").

(** Lines 29-47.  [todense()] of a sparse matrix is an [np.matrix], so the
    recursive call of line 45 lands in the branch of line 35. *)
Definition normalize_attr_array (a : value) : res ndarray :=
  match a with
  | Np (Nd a) => Ok a
  | Matrix a => normalize_matrix a
  | PyList l | PyTuple l => np_array l
  | Sparse a => normalize_matrix a
  | _ =>
      Raise (ValueError ("Argument must be a list, tuple, numpy matrix, "
                           ++ "numpy ndarray or sparse matrix."))
  end.

(** [for elm in a] at line 74, for the [a] that got through line 69. *)
Definition iter_value (a : value) : res (list value) :=
  match a with
  | Np (Nd a) => res_bind (iter_array a) (fun xs => Ok (map Np xs))
  | PyList l | PyTuple l => Ok (map Obj l)
  | Matrix a => Ok (map Matrix (matrix_rows a))
  | Sparse a => Ok (map Sparse (matrix_rows a))
  | _ => Raise TypeError
  end.

(** [np.array([a])] at lines 67 and 89, for a scalar [a]. *)
Definition wrap_scalar (a : value) : res ndarray :=
  match a with
  | Np (Scalar o) => np_array [o]
  | _ => Raise TypeError
  end.

(** Lines 50-82. *)
Definition normalize_attr_values (a : value) (use_object_strings : bool)
  : M npval :=
  let scalar := np_isscalar a in
  a <- (if scalar then x <- lift (wrap_scalar a) ;; ret (Array x)
        else ret a) ;;
  arr <- lift (normalize_attr_array a) ;;
  arr <- (if issubdtype (dtype_of arr) np_integer
             || issubdtype (dtype_of arr) np_floating then
            ret arr
          else if issubdtype (dtype_of arr) np_character
                  || issubdtype (dtype_of arr) np_object_ then
            if use_object_strings then
              elms <- lift (iter_value a) ;;
              lift (np_array_as dt_object
                      (map (fun elm => PyStr (str elm)) elms))
            else
              normalize_attr_strings arr
          else if issubdtype (dtype_of arr) np_bool_ then
            ret (astype_ubyte arr)
          else ret arr) ;;
  if scalar then lift (getitem0 arr) else ret (Nd arr).

(** [html.unescape(x)] for an [x] that a loop over an array of kind 'U'
    yields.  A [str] without [&] is returned as it is.  On a sub-array,
    ['&' not in x] asks whether some element equals ['&']; if none does the
    sub-array is returned as it is, otherwise [re.sub] rejects it. *)
Definition html_unescape (x : npval) : res npval :=
  match x with
  | Scalar o =>
      match text_of o with
      | Some s =>
          if existsb (N.eqb 38) s then Ok (Scalar (PyStr (unescape html5 s)))
          else Ok x
      | None => Raise TypeError
      end
  | Nd a =>
      if existsb (fun o => match text_of o with
                           | Some [38%N] => true
                           | _ => false
                           end) (data a)
      then Raise TypeError
      else Ok x
  end.

(** Line 99, the body of the [try]. *)
Definition unescape_step (temp : ndarray) : M pyresult :=
  ts <- lift (astype dt_str temp) ;;
  xs <- lift (iter_array ts) ;;
  us <- lift (map_res html_unescape xs) ;;
  ret (RArray (stack_objects us)).

(** Lines 101-102, the body of the [except]; [result] stays [None] when the
    test of line 101 fails. *)
Definition fallback (a : ndarray) : M pyresult :=
  x <- lift (getitem0 a) ;;
  match x with
  | Scalar (NpBytes b) =>   (* [type(a[0]) == np.bytes_] *)
      ret (RList [PyBytes (replace_nbsp b)])
  | _ => ret RNone
  end.

(** Lines 85-110. *)
Definition materialize_attr_values (a : npval) : M value :=
  let scalar := np_isscalar (Np a) in
  a <- (if scalar then lift (wrap_scalar (Np a))
        else match a with
             | Nd x => ret x
             | Scalar _ => raise AttributeError   (* [a.dtype] at line 91 *)
             end) ;;
  result <- (if issubdtype (dtype_of a) np_string_
                || issubdtype (dtype_of a) np_object_ then
               temp <- (if hasattr_decode a then
                          xs <- lift (iter_array a) ;;
                          ds <- lift (map_res decode_ignore xs) ;;
                          lift (np_array ds)
                        else ret a) ;;
               try_except (unescape_step temp) (fallback a)
             else if issubdtype (dtype_of a) np_str_
                     || issubdtype (dtype_of a) np_unicode_ then
               ts <- lift (astype dt_str a) ;;
               ret (RArray (mk_array dt_object (shape ts)
                              (map to_python (data ts))))
             else ret (RArray a)) ;;
  if scalar then x <- lift (subscript0 result) ;; ret (Np x)
  else ret (value_of_result result).

End Source.

End Loom.

(* ------------------------------------------------------------------------- *)
(** ** The vocabulary of the properties *)

Module Spec.
Import Text Py Loom.

(** *** The round trip *)

Definition ends_with_nul (s : text) : bool := N.eqb (last s 1%N) 0.
Definition has_amp (s : text) : bool := existsb (N.eqb 38) s.

(** An ASCII text that numpy stores whole and that [html.unescape] leaves as
    it is. *)
Definition stable_text (html5 : text -> option text) (s : text) : Prop :=
  ascii_text s = true /\ ends_with_nul s = false /\ unescape html5 s = s.

(** The one-dimensional sequences of native text: a list or a tuple of
    [str], an array of kind 'U', an array of objects that are all [str]. *)
Inductive text_sequence (x : list text) : value -> Prop :=
| seq_list : text_sequence x (PyList (map PyStr x))
| seq_tuple : text_sequence x (PyTuple (map PyStr x))
| seq_unicode :
    text_sequence x (Array (mk_array dt_str [length x] (map NpStr x)))
| seq_object :
    text_sequence x (Array (mk_array dt_object [length x] (map PyStr x))).

(** The texts of the elements of an array, for Python's element-wise [==]
    with a list of [str]. *)
Definition texts_of (a : ndarray) : list (option text) := map text_of (data a).

(** [materialize_attr_values(normalize_attr_values(x))]. *)
Definition roundtrip (container_str : value -> text)
    (html5 : text -> option text) (x : value) : res value :=
  match result (normalize_attr_values container_str x false) with
  | Ok v => result (materialize_attr_values html5 v)
  | Raise e => Raise e
  end.

(** The round trip returns an array that equals [x], element by element. *)
Definition roundtrip_holds (container_str : value -> text)
    (html5 : text -> option text) (x : list text) (v : value) : Prop :=
  exists r, roundtrip container_str html5 v = Ok (Array r)
            /\ texts_of r = map Some x.

(** The array that the Text Encoder builds from ASCII texts; [np.array([])]
    is an empty float64 array. *)
Definition encoded (x : list text) : ndarray :=
  match x with
  | [] => mk_array dt_float [0%nat] []
  | _ => mk_array dt_bytes [length x] (map (fun s => NpBytes (map byte_of s)) x)
  end.

(** The object that line 99 makes of a stored text that unescapes to
    itself: [html.unescape] returns its own argument when it holds no [&]. *)
Definition unescaped (s : text) : pyobj := if has_amp s then PyStr s else NpStr s.

(** *** Shapes and containers *)

Definition msg_1dim : string := "Attribute values must be 1-dimensional.".
Definition msg_container : string :=
  "Argument must be a list, tuple, numpy matrix, " ++
  "numpy ndarray or sparse matrix.".

(** A matrix of [r] rows and [c] columns, with all its elements. *)
Definition matrix_of (m : ndarray) (r c : nat) : Prop :=
  shape m = [r; c] /\ length (data m) = (r * c)%nat.


Definition numeric (a : ndarray) : bool :=
  issubdtype (dtype_of a) np_integer || issubdtype (dtype_of a) np_floating.

(** The kinds that take the branch of line 72, and of line 91. *)
Definition text_or_object (a : ndarray) : bool :=
  issubdtype (dtype_of a) np_character || issubdtype (dtype_of a) np_object_.
Definition bytes_or_object (a : ndarray) : bool :=
  issubdtype (dtype_of a) np_string_ || issubdtype (dtype_of a) np_object_.

(** The container kinds that lines 33 to 45 accept. *)
Definition accepted_container (v : value) : bool :=
  match v with
  | Np (Nd _) | PyList _ | PyTuple _ | Matrix _ | Sparse _ => true
  | _ => false
  end.

(** The dtypes of the canonical persisted forms: a number, the unsigned
    byte of a boolean, a byte string. *)
Definition canonical_dtype (d : dtype) : bool :=
  issubdtype d np_integer || issubdtype d np_floating || issubdtype d np_string_.

(** What [a] is bound to after line 68: a scalar is wrapped in an array of
    one element. *)
Definition wrapped (a : value) : res value :=
  if np_isscalar a then res_bind (wrap_scalar a) (fun x => Ok (Array x))
  else Ok a.

(** *** Mixed objects *)

(** The tests of lines 14 and 16. *)
Definition all_str (xs : list npval) : bool :=
  forallb (fun x => type_is x ty_str || type_is x ty_np_str_
                    || type_is x ty_np_unicode_) xs.
Definition all_np_bytes (xs : list npval) : bool :=
  forallb (fun x => type_is x ty_np_string_) xs
  || forallb (fun x => type_is x ty_np_bytes_) xs.
(** Both fail: the branch of line 18. *)
Definition mixed (xs : list npval) : bool :=
  negb (all_str xs) && negb (all_np_bytes xs).

(** *** The read path *)

(** The array that [a] is bound to after line 89. *)
Definition as_array (v : npval) : res ndarray :=
  if np_isscalar (Np v) then wrap_scalar (Np v)
  else match v with
       | Nd x => Ok x
       | Scalar _ => Raise AttributeError
       end.

(** *** Sample values *)

(** A printer for the examples that print no container, and the printer
    that gives what numpy prints for the matrix [[['a' 'b']]]. *)
Definition no_container_str : value -> text := fun _ => [].

(** Some entries of [html.entities.html5], for the examples. *)
Definition html5_common (s : text) : option text :=
  let key (k : string) : bool :=
    if list_eq_dec N.eq_dec s (txt k) then true else false in
  if key "amp;"%string || key "amp"%string then Some (txt "&")
  else if key "lt;"%string || key "lt"%string then Some (txt "<")
  else if key "gt;"%string || key "gt"%string then Some (txt ">")
  else if key "quot;"%string || key "quot"%string then Some [34%N]
  else if key "apos;"%string then Some (txt "'")
  else if key "nbsp;"%string || key "nbsp"%string then Some [160%N]
  else None.

(** ["café"] and ["hello"]. *)
Definition cafe : text := (txt "caf" ++ [233%N])%list.

(** A dense 2x3 array of integers (as a matrix: [[1 2 3] [4 5 6]]), a 1x1
    matrix, a complex array. *)
Definition a23 : ndarray :=
  mk_array (dt_int I64) [2; 3]%nat (map (NpInt I64) [1; 2; 3; 4; 5; 6]%Z).
Definition m11 : ndarray := mk_array (dt_int I64) [1; 1]%nat [NpInt I64 7%Z].

Definition a_none : value := PyList [PyStr (txt "a"); PyNone].


(** An array of kind 'U' that holds a character reference, and the matrix
    [[['a' 'b']]]. *)
Definition amp_array : ndarray :=
  mk_array dt_str [2%nat] [NpStr (txt "&amp;"); NpStr (txt "x")].

(** *** Text beyond ASCII *)

(** The text of the bytes that the encoder writes for [s]: what the read
    path decodes before it unescapes. *)
Definition escaped (s : text) : text :=
  map Byte.to_N (encode_xmlcharrefreplace s).

(** The array that the Text Encoder builds from one or more texts. *)
Definition escaped_array (x : list text) : ndarray :=
  mk_array dt_bytes [length x]
    (map (fun s => NpBytes (encode_xmlcharrefreplace s)) x).

(** What the read path makes of one character [c] that the encoder wrote:
    [c] itself when it is ASCII, and otherwise what [html.unescape] gives
    for the reference [&#c;]. *)
Definition read_back (c : N) : text :=
  if is_ascii c then [c]
  else match invalid_charrefs c with
       | Some c' => [c']
       | None =>
           if ((0xD800 <=? c) && (c <=? 0xDFFF) || (0x10FFFF <? c))%N
           then [0xFFFD%N]
           else if invalid_codepoint c then [] else [c]
       end.

(** The characters that come back as they were: the ASCII ones, and those
    whose decimal reference [html.unescape] reads as the character itself
    (no surrogate, nothing beyond U+10FFFF, no reference that HTML 5 reads
    as Windows-1252 or drops). *)
Definition survives (c : N) : bool :=
  is_ascii c
  || match invalid_charrefs c with
     | Some c' => N.eqb c' c
     | None =>
         negb ((0xD800 <=? c) && (c <=? 0xDFFF) || (0x10FFFF <? c))%N
         && negb (invalid_codepoint c)
     end.


(** *** Stored byte strings *)

Definition bytes_of (o : pyobj) : bytes :=
  match o with
  | PyBytes b | NpBytes b => b
  | _ => []
  end.

Definition ascii_bytes (b : bytes) : bool := ascii_text (map Byte.to_N b).
Definition ascii_cell (o : pyobj) : bool := ascii_bytes (bytes_of o).

(** The object that line 99 makes of a text [s] read from a cell of kind
    'U': [html.unescape] returns its own argument, an [np.str_], when [s]
    holds no [&], and a new [str] otherwise. *)
Definition read_text (html5 : text -> option text) (s : text) : pyobj :=
  if has_amp s then PyStr (unescape html5 s) else NpStr s.

(** ... of a stored ASCII byte string. *)
Definition read_cell (html5 : text -> option text) (o : pyobj) : pyobj :=
  read_text html5 (map Byte.to_N (bytes_of o)).


(** The [np.str_] that [astype(str)] makes of a stored ASCII byte string,
    and the test ['&' in row] of [html.unescape] on one element of a row. *)
Definition stored_text (o : pyobj) : pyobj := NpStr (map Byte.to_N (bytes_of o)).
Definition amp_text (o : pyobj) : bool :=
  match text_of o with
  | Some [38%N] => true
  | _ => false
  end.

(** *** Numbers and booleans *)

(** The unsigned byte that stands for a boolean. *)
Definition ubyte_of_bool (b : bool) : pyobj := NpInt U8 (Z_of_bool b).

(** The empty float64 array that [np.array([])] is. *)
Definition empty_float : ndarray := mk_array dt_float [0%nat] [].


(** *** Errors *)


(** *** More sample values *)

(** ["Zoë €"], the control character U+0085, the integer 2^70, and a 2x2
    array of kind 'U'. *)
Definition zoe_euro : text := (txt "Zo" ++ [235; 32; 0x20AC]%N)%list.
Definition next_line : text := [0x85%N].
Definition u22 : ndarray :=
  mk_array dt_str [2; 2]%nat (map NpStr [txt "a"; txt "b"; txt "c"; txt "d"]).

Definition lt_b_row : ndarray :=
  mk_array dt_bytes [1; 2]%nat [NpBytes (bts "&lt;"); NpBytes (bts "b")].

(** An empty 0x3 array of kind 'U', and a boolean array. *)
Definition u03 : ndarray := mk_array dt_str [0; 3]%nat [].
Definition true_false : list bool := [true; false].

End Spec.

(* ------------------------------------------------------------------------- *)
(** ** Properties *)

Import Text Py Loom Spec.
Local Open Scope py_scope.

(** *** The library on examples *)

Example float_repr_examples :
  PyFloat.float_repr (PyFloat.of_decimal 25 (-1)) = txt "2.5"
  /\ PyFloat.float_repr (PyFloat.of_decimal 1 (-1)) = txt "0.1"
  /\ PyFloat.float_repr (PyFloat.of_Z 1) = txt "1.0"
  /\ PyFloat.float_repr (PyFloat.of_decimal 1 16) = txt "1e+16"
  /\ PyFloat.float_repr (PyFloat.of_decimal 1 (-5)) = txt "1e-05"
  /\ PyFloat.float_repr
       (SFdiv PyFloat.prec PyFloat.emax (PyFloat.of_Z 1) (PyFloat.of_Z 3))
     = txt "0.3333333333333333"
  /\ PyFloat.float_repr (PyFloat.of_Z (2 ^ 63)) = txt "9.223372036854776e+18"
  /\ PyFloat.complex_repr (PyFloat.of_Z 1) (PyFloat.of_Z 2) = txt "(1+2j)"
  /\ PyFloat.complex_repr (S754_zero false) (PyFloat.of_decimal (-25) (-1))
     = txt "-2.5j".
Proof. vm_compute. repeat split. Qed.

Example unescape_examples :
  unescape html5_common (txt "R&D &amp; &lt;b&gt; &#65;&#x41 &#; &nbsp")
  = (txt "R&D & <b> AA &#; " ++ [160%N])%list
  /\ unescape html5_common (txt "&#128;&#0;&#xD800;&#x110000;[&#11;]")
     = [0x20AC; 0xFFFD; 0xFFFD; 0xFFFD; 91; 93]%N
  /\ encode_xmlcharrefreplace [233; 0x20AC; 97]%N = bts "&#233;&#8364;a".
Proof. vm_compute. repeat split. Qed.

Example np_array_examples :
  np_array [PyInt 1; PyBool true]
  = Ok (mk_array (dt_int I64) [2%nat] [NpInt I64 1; NpInt I64 1])
  /\ result_dtype [PyInt 1; PyFloat (PyFloat.of_Z 2)] = dt_float
  /\ result_dtype [PyInt (2 ^ 63); PyInt (-1)] = dt_float
  /\ result_dtype [PyInt (2 ^ 64)] = dt_object
  /\ result_dtype [PyStr (txt "a"); PyNone] = dt_object
  /\ np_array [PyBytes (bts "a"); PyStr (txt "b")]
     = Ok (mk_array dt_str [2%nat] [NpStr (txt "a"); NpStr (txt "b")])
  /\ np_array [PyBytes [xc2; xa0]; PyStr (txt "b")] = Raise UnicodeDecodeError
  /\ py_str (PyBytes (bts "a")) = txt "b'a'"
  /\ data (np_unique [txt "b"; txt "a"; txt "b"]) = [NpStr (txt "a"); NpStr (txt "b")].
Proof. vm_compute. repeat split. Qed.

(** *** The ASCII codec *)

Lemma byte_of_to_N (c : N) : (c < 256)%N -> Byte.to_N (byte_of c) = c.
Proof.
  intros Hc. unfold byte_of.
  destruct (Byte.of_N c) as [b|] eqn:E.
  - now apply Byte.to_of_N.
  - apply Byte.of_N_None_iff in E. lia.
Qed.

Lemma is_ascii_lt (c : N) : is_ascii c = true -> (c < 256)%N.
Proof. unfold is_ascii. intros H. apply N.ltb_lt in H. lia. Qed.

Lemma byte_of_nul (c : N) :
  is_ascii c = true -> Byte.eqb x00 (byte_of c) = N.eqb 0 c.
Proof.
  intros Hc. apply is_ascii_lt in Hc.
  destruct (N.eqb_spec 0 c) as [<-|Hne]; [reflexivity|].
  destruct (Byte.eqb x00 (byte_of c)) eqn:E; [|reflexivity].
  apply Byte.byte_dec_bl in E.
  apply (f_equal Byte.to_N) in E. rewrite byte_of_to_N in E by assumption.
  now subst c.
Qed.

Lemma to_N_byte_of_ascii (s : text) :
  ascii_text s = true -> map Byte.to_N (map byte_of s) = s.
Proof.
  unfold ascii_text. induction s as [|c r IH]; simpl; [reflexivity|].
  intros H. apply andb_true_iff in H as [Hc Hr].
  now rewrite byte_of_to_N, IH by auto using is_ascii_lt.
Qed.

Lemma decode_encode_ascii (s : text) :
  ascii_text s = true -> decode_ascii (map byte_of s) = Some s.
Proof.
  intros H. unfold decode_ascii. now rewrite to_N_byte_of_ascii, H.
Qed.

(** On ASCII text the handler [xmlcharrefreplace] has nothing to replace. *)
Lemma encode_xml_ascii (s : text) :
  ascii_text s = true -> encode_xmlcharrefreplace s = map byte_of s.
Proof.
  unfold ascii_text, encode_xmlcharrefreplace.
  induction s as [|c r IH]; simpl; [reflexivity|].
  intros H. apply andb_true_iff in H as [Hc Hr].
  unfold encode_char_xml at 1. now rewrite Hc, IH.
Qed.

Lemma rstrip_nul_map {A B} (f : A -> B) (p : A -> bool) (q : B -> bool)
    (s : list A) :
  Forall (fun c => q (f c) = p c) s ->
  rstrip_nul q (map f s) = map f (rstrip_nul p s).
Proof.
  induction 1 as [|c r Hc Hr IH]; simpl; [reflexivity|].
  fold (rstrip_nul q (map f r)). fold (rstrip_nul p r).
  rewrite IH. destruct (rstrip_nul p r); simpl; [|reflexivity].
  rewrite Hc. now destruct (p c).
Qed.

Lemma strip_bytes_ascii (s : text) :
  ascii_text s = true -> strip_bytes (map byte_of s) = map byte_of (strip_text s).
Proof.
  intros H. apply rstrip_nul_map.
  apply Forall_forall. intros c Hc.
  unfold ascii_text in H. rewrite forallb_forall in H.
  now apply byte_of_nul, H.
Qed.

Lemma strip_text_id (s : text) : ends_with_nul s = false -> strip_text s = s.
Proof.
  unfold strip_text, ends_with_nul.
  induction s as [|c r IH]; [reflexivity|].
  intros H. simpl. fold (rstrip_nul (N.eqb 0) r).
  destruct r as [|c' r'].
  - cbn [last] in H. cbn. destruct c; [discriminate|reflexivity].
  - rewrite IH by exact H. reflexivity.
Qed.

Lemma uint_text_ascii (u : Decimal.uint) : ascii_text (uint_text u) = true.
Proof. induction u; simpl; auto. Qed.


(** *** The outcome monad *)

Lemma bind_ret {A B} (a : A) (k : A -> M B) : bind (ret a) k = k a.
Proof. unfold bind, ret. now destruct (k a). Qed.

Lemma bind_lift_ok {A B} (a : A) (k : A -> M B) : bind (lift (Ok a)) k = k a.
Proof. exact (bind_ret a k). Qed.

Lemma bind_ok {A B} (m : M A) (k : A -> M B) (l : list log_record) (b : B) :
  bind m k = (l, Ok b) ->
  exists l1 a l2, m = (l1, Ok a) /\ k a = (l2, Ok b) /\ l = (l1 ++ l2)%list.
Proof.
  destruct m as [l1 [a|e]]; simpl; [|discriminate].
  destruct (k a) as [l2 r] eqn:Ek. intros [= <- ->].
  now exists l1, a, l2.
Qed.

Lemma lift_ok {A} (r : res A) (l : list log_record) (a : A) :
  lift r = (l, Ok a) -> r = Ok a /\ l = [].
Proof. unfold lift. now intros [= <- ->]. Qed.

Lemma map_res_ok {A B} (f : A -> res B) (g : A -> B) (l : list A) :
  Forall (fun x => f x = Ok (g x)) l -> map_res f l = Ok (map g l).
Proof.
  induction 1 as [|x r Hx Hr IH]; simpl; [reflexivity|].
  now rewrite Hx, IH.
Qed.

Lemma map_ext_Forall {A B} (f g : A -> B) (l : list A) :
  Forall (fun x => f x = g x) l -> map f l = map g l.
Proof. induction 1; simpl; congruence. Qed.

(** *** np.array and the casts *)

Lemma promote_types_idem (d : dtype) : promote_types d d = d.
Proof. destruct d as [| [] | | | | |]; reflexivity. Qed.

Lemma fold_promote_const (d : dtype) (l : list pyobj) :
  Forall (fun o => dtype_of_obj o = d) l ->
  fold_left promote_types (map dtype_of_obj l) d = d.
Proof.
  induction 1 as [|o r Ho Hr IH]; simpl; [reflexivity|].
  now rewrite Ho, promote_types_idem.
Qed.

(** A list of objects of one dtype gives an array of that dtype. *)
Lemma result_dtype_const (d : dtype) (l : list pyobj) :
  l <> [] -> Forall (fun o => dtype_of_obj o = d) l -> result_dtype l = d.
Proof.
  destruct l as [|o r]; [congruence|]. intros _ H.
  inversion H as [|? ? Ho Hr]; subst. simpl. now apply fold_promote_const.
Qed.

Lemma np_array_bytes (bs : list bytes) :
  bs <> [] ->
  np_array (map PyBytes bs)
  = Ok (mk_array dt_bytes [length bs] (map (fun b => NpBytes (strip_bytes b)) bs)).
Proof.
  intros Hne. unfold np_array, np_array_as.
  rewrite (@result_dtype_const dt_bytes).
  - rewrite (map_res_ok _ (fun o => match o with
                                    | PyBytes b => NpBytes (strip_bytes b)
                                    | _ => o
                                    end)).
    + simpl. now rewrite length_map, map_map.
    + apply Forall_forall. intros o Ho.
      apply in_map_iff in Ho as (b & <- & _). reflexivity.
  - destruct bs; [congruence|discriminate].
  - apply Forall_forall. intros o Ho.
    apply in_map_iff in Ho as (b & <- & _). reflexivity.
Qed.

Lemma np_array_strs (x : list text) :
  x <> [] ->
  np_array (map PyStr x)
  = Ok (mk_array dt_str [length x] (map (fun s => NpStr (strip_text s)) x)).
Proof.
  intros Hne. unfold np_array, np_array_as.
  rewrite (@result_dtype_const dt_str).
  - rewrite (map_res_ok _ (fun o => match o with
                                    | PyStr s => NpStr (strip_text s)
                                    | _ => o
                                    end)).
    + simpl. now rewrite length_map, map_map.
    + apply Forall_forall. intros o Ho.
      apply in_map_iff in Ho as (b & <- & _). reflexivity.
  - destruct x; [congruence|discriminate].
  - apply Forall_forall. intros o Ho.
    apply in_map_iff in Ho as (b & <- & _). reflexivity.
Qed.

Lemma np_array_as_dtype (d : dtype) (l : list pyobj) (r : ndarray) :
  np_array_as d l = Ok r -> dtype_of r = d.
Proof.
  unfold np_array_as. destruct (map_res (setitem d) l); simpl; [|discriminate].
  now intros [= <-].
Qed.

Lemma astype_dtype (d : dtype) (a r : ndarray) :
  astype d a = Ok r -> dtype_of r = d.
Proof.
  unfold astype. destruct (map_res (setitem d) (data a)); simpl; [|discriminate].
  now intros [= <-].
Qed.

Lemma setitem_object (l : list pyobj) : map_res (setitem dt_object) l = Ok l.
Proof. induction l as [|o r IH]; [reflexivity|]. cbn. now rewrite IH. Qed.

Lemma np_array_as_object (l : list pyobj) :
  np_array_as dt_object l = Ok (mk_array dt_object [length l] l).
Proof. unfold np_array_as. now rewrite setitem_object. Qed.

(** Reading the elements of a well-formed array of kind 'U' into cells of
    kind 'U' changes nothing. *)
Lemma setitem_str_wf (l : list pyobj) :
  forallb (cell_ok dt_str) l = true -> map_res (setitem dt_str) l = Ok l.
Proof.
  induction l as [|o r IH]; [reflexivity|].
  cbn [forallb map_res]. intros H. apply andb_true_iff in H as [Ho Hr].
  rewrite (IH Hr). destruct o; try discriminate Ho.
  cbn in Ho |- *.
  destruct (list_eq_dec N.eq_dec (strip_text s) s) as [->|];
    [reflexivity|discriminate].
Qed.

(** ASCII [str] objects stored as byte strings. *)
Lemma setitem_ascii_strs (ss : list text) :
  Forall (fun s => ascii_text s = true) ss ->
  map_res (setitem dt_bytes) (map PyStr ss)
  = Ok (map (fun s => NpBytes (strip_bytes (encode_xmlcharrefreplace s))) ss).
Proof.
  induction 1 as [|s r Hs Hr IH]; [reflexivity|].
  cbn [map map_res]. rewrite IH.
  cbn [setitem]. unfold encode_ascii. rewrite Hs. cbn.
  now rewrite encode_xml_ascii.
Qed.

Lemma text_of_to_python (l : list pyobj) :
  map text_of (map to_python l) = map text_of l.
Proof. rewrite map_map. apply map_ext. now intros []. Qed.

Lemma chunks_ones {A} (l : list A) :
  flat_map (firstn 1) (chunks (length l) 1 l) = l.
Proof.
  induction l as [|x r IH]; [reflexivity|].
  cbn [length chunks firstn skipn flat_map app]. f_equal. exact IH.
Qed.


Lemma encode_xml_bytes (xs : list npval) (bs : list pyobj) :
  map_res encode_xml xs = Ok bs ->
  Forall (fun o => dtype_of_obj o = dt_bytes) bs.
Proof.
  revert bs. induction xs as [|x r IH]; simpl; intros bs.
  - intros [= <-]. constructor.
  - destruct (encode_xml x) as [b|] eqn:Ex; simpl; [|discriminate].
    destruct (map_res encode_xml r) as [bs'|]; simpl; [|discriminate].
    intros [= <-]. constructor; [|now apply IH].
    destruct x as [[]|]; simpl in Ex; try discriminate; now injection Ex as <-.
Qed.

Lemma np_array_encoded_dtype (xs : list npval) (bs : list pyobj) (r : ndarray) :
  map_res encode_xml xs = Ok bs -> np_array bs = Ok r ->
  canonical_dtype (dtype_of r) = true.
Proof.
  intros Hbs Hr. apply encode_xml_bytes in Hbs.
  unfold np_array in Hr. apply np_array_as_dtype in Hr. rewrite Hr.
  destruct bs as [|b bs']; [reflexivity|].
  rewrite (@result_dtype_const dt_bytes); [reflexivity|discriminate|assumption].
Qed.

Lemma encoded_array_dtype (xs : list npval) (l : list log_record) (r : ndarray) :
  (bs <- lift (map_res encode_xml xs) ;; lift (np_array bs)) = (l, Ok r) ->
  canonical_dtype (dtype_of r) = true.
Proof.
  intros H. apply bind_ok in H as (l1 & bs & l2 & H1 & H2 & _).
  apply lift_ok in H1 as [H1 _]. apply lift_ok in H2 as [H2 _].
  eapply np_array_encoded_dtype; eassumption.
Qed.

(** *** The write path *)

Section WritePath.
Variable container_str : value -> text.

Lemma normalize_numeric (a : value) (arr : ndarray) (uos : bool) :
  np_isscalar a = false ->
  normalize_attr_array a = Ok arr ->
  numeric arr = true ->
  normalize_attr_values container_str a uos = ([], Ok (Nd arr)).
Proof.
  intros Hs Ha Hn. unfold normalize_attr_values.
  rewrite Hs, bind_ret, Ha, bind_lift_ok.
  unfold numeric in Hn. rewrite Hn. reflexivity.
Qed.

Lemma normalize_array_raises (a : value) (e : exn) (uos : bool) :
  np_isscalar a = false ->
  normalize_attr_array a = Raise e ->
  normalize_attr_values container_str a uos = ([], Raise e).
Proof.
  intros Hs Ha. unfold normalize_attr_values.
  rewrite Hs, bind_ret, Ha. reflexivity.
Qed.

Lemma matrix_is_not_scalar (m : ndarray) (v : value) :
  v = Matrix m \/ v = Sparse m ->
  np_isscalar v = false /\ normalize_attr_array v = normalize_matrix m.
Proof. intros [-> | ->]; split; reflexivity. Qed.

(** The Text Encoder returns a byte-string array, or the empty float64 array
    that [np.array([])] is. *)
Lemma normalize_strings_dtype (a r : ndarray) (l : list log_record) :
  text_or_object a = true ->
  normalize_attr_strings container_str a = (l, Ok r) ->
  canonical_dtype (dtype_of r) = true.
Proof.
  unfold text_or_object. intros Hk. unfold normalize_attr_strings.
  destruct (dtype_of a) eqn:Ed; try discriminate; cbn [issubdtype orb].
  - (* 'S' *) intros [= _ <-]. now rewrite Ed.
  - (* 'U' *)
    intros H. apply bind_ok in H as (l1 & xs & l2 & _ & H & _).
    now apply encoded_array_dtype in H.
  - (* object *)
    intros H. apply bind_ok in H as (l1 & xs & l2 & _ & H & _).
    match type of H with (if ?c then _ else _) = _ => destruct c end;
      [now apply encoded_array_dtype in H|].
    match type of H with (if ?c then _ else _) = _ => destruct c end.
    + apply lift_ok in H as [H _]. apply astype_dtype in H. now rewrite H.
    + apply bind_ok in H as (l3 & u & l4 & _ & H & _).
      apply lift_ok in H as [H _]. apply np_array_as_dtype in H. now rewrite H.
Qed.

(** The Text Encoder on ASCII texts without trailing NUL. *)
Lemma encode_items (g : text -> npval) (x : list text) :
  (forall s, encode_xml (g s) = Ok (PyBytes (encode_xmlcharrefreplace s))) ->
  Forall (fun s => ascii_text s = true /\ ends_with_nul s = false) x ->
  (bs <- lift (map_res encode_xml (map g x)) ;; lift (np_array bs))
  = ([], Ok (encoded x)).
Proof.
  intros Hg Hx.
  assert (E : map_res encode_xml (map g x)
              = Ok (map PyBytes (map (map byte_of) x))).
  { rewrite map_map.
    clear -Hg Hx. induction Hx as [|s r [Hs _] Hr IH]; simpl; [reflexivity|].
    rewrite Hg, IH. simpl. now rewrite encode_xml_ascii. }
  rewrite E, bind_lift_ok. destruct x as [|s r]; [reflexivity|].
  rewrite np_array_bytes by discriminate.
  unfold encoded, lift. rewrite !length_map, map_map. do 3 f_equal.
  apply map_ext_Forall. revert Hx. apply Forall_impl. intros t [Ha Hn].
  now rewrite strip_bytes_ascii, strip_text_id.
Qed.

Lemma normalize_strings_unicode (x : list text) :
  Forall (fun s => ascii_text s = true /\ ends_with_nul s = false) x ->
  normalize_attr_strings container_str (mk_array dt_str [length x] (map NpStr x))
  = ([], Ok (encoded x)).
Proof.
  intros Hx. unfold normalize_attr_strings.
  cbn [dtype_of issubdtype orb iter_array shape data].
  rewrite bind_lift_ok, map_map.
  exact (encode_items (fun s => Scalar (NpStr s)) (fun s => eq_refl) Hx).
Qed.

Lemma all_str_strs (x : list text) :
  all_str (map Scalar (map PyStr x)) = true.
Proof. unfold all_str. induction x; simpl; auto. Qed.

Lemma normalize_strings_object (x : list text) :
  Forall (fun s => ascii_text s = true /\ ends_with_nul s = false) x ->
  normalize_attr_strings container_str (mk_array dt_object [length x] (map PyStr x))
  = ([], Ok (encoded x)).
Proof.
  intros Hx. unfold normalize_attr_strings.
  cbn [dtype_of issubdtype orb iter_array shape data].
  rewrite bind_lift_ok.
  pose proof (all_str_strs x) as Hall. unfold all_str in Hall. rewrite Hall.
  rewrite map_map.
  exact (encode_items (fun s => Scalar (PyStr s)) (fun s => eq_refl) Hx).
Qed.

Lemma strip_all (x : list text) :
  Forall (fun s => ascii_text s = true /\ ends_with_nul s = false) x ->
  map (fun s => NpStr (strip_text s)) x = map NpStr x.
Proof.
  intros Hx. apply map_ext_Forall. revert Hx. apply Forall_impl.
  intros s [_ Hn]. now rewrite strip_text_id.
Qed.

(** The write path on a sequence of ASCII texts. *)
Lemma normalize_text_sequence (x : list text) (v : value) :
  text_sequence x v ->
  Forall (fun s => ascii_text s = true /\ ends_with_nul s = false) x ->
  normalize_attr_values container_str v false = ([], Ok (Nd (encoded x))).
Proof.
  intros Hv Hx.
  assert (Hl : forall l, normalize_attr_array l = np_array (map PyStr x) ->
               np_isscalar l = false ->
               normalize_attr_values container_str l false
               = ([], Ok (Nd (encoded x)))).
  { intros l El Hs. unfold normalize_attr_values. rewrite Hs, bind_ret, El.
    destruct x as [|s r]; [reflexivity|].
    rewrite np_array_strs by discriminate. rewrite strip_all by assumption.
    rewrite bind_lift_ok. cbn [dtype_of issubdtype orb].
    rewrite normalize_strings_unicode by assumption. reflexivity. }
  destruct Hv.
  - now apply Hl.
  - now apply Hl.
  - unfold normalize_attr_values, Array.
    cbn [np_isscalar]. rewrite bind_ret.
    cbn [normalize_attr_array]. rewrite bind_lift_ok.
    cbn [dtype_of issubdtype orb].
    rewrite normalize_strings_unicode by assumption. reflexivity.
  - unfold normalize_attr_values, Array.
    cbn [np_isscalar]. rewrite bind_ret.
    cbn [normalize_attr_array]. rewrite bind_lift_ok.
    cbn [dtype_of issubdtype orb].
    rewrite normalize_strings_object by assumption. reflexivity.
Qed.

(** Line 74: the result is built from the (wrapped) input, not from the
    coerced array. *)
Lemma object_strings (a a' : value) (arr : ndarray) (elms : list value) :
  wrapped a = Ok a' ->
  normalize_attr_array a' = Ok arr ->
  text_or_object arr = true ->
  iter_value a' = Ok elms ->
  normalize_attr_values container_str a true
  = (let r := mk_array dt_object [length elms]
                (map (fun elm => PyStr (str container_str elm)) elms) in
     if np_isscalar a then lift (getitem0 r) else ret (Nd r)).
Proof.
  intros Hw Ha Hk Hel. unfold normalize_attr_values.
  assert (E : (if np_isscalar a
               then x <- lift (wrap_scalar a) ;; ret (Array x)
               else ret a) = ret a').
  { unfold wrapped in Hw. destruct (np_isscalar a).
    - destruct (wrap_scalar a) as [x|]; [|discriminate Hw].
      cbn in Hw. injection Hw as <-. now rewrite bind_lift_ok.
    - now injection Hw as <-. }
  rewrite E, bind_ret, Ha, bind_lift_ok.
  unfold text_or_object in Hk.
  assert (Hn : issubdtype (dtype_of arr) np_integer
               || issubdtype (dtype_of arr) np_floating = false)
    by (destruct (dtype_of arr); try reflexivity; discriminate Hk).
  rewrite Hn, Hk, Hel, bind_lift_ok, np_array_as_object, bind_lift_ok, length_map.
  reflexivity.
Qed.


End WritePath.

(** *** The read path *)

Section ReadPath.
Variable html5 : text -> option text.

Lemma unescape_step_logs (a : ndarray) : logs (unescape_step html5 a) = [].
Proof.
  unfold unescape_step.
  destruct (astype dt_str a) as [ts|]; [|reflexivity]. cbn [lift bind].
  destruct (iter_array ts) as [xs|]; [|reflexivity]. cbn [lift bind].
  destruct (map_res (html_unescape html5) xs); reflexivity.
Qed.

(** When the body of the [try] raises, the body of the [except] decides. *)
Lemma try_fallback (a : ndarray) :
  raises (unescape_step html5 a) = true ->
  try_except (unescape_step html5 a) (fallback a) = fallback a.
Proof.
  pose proof (unescape_step_logs a) as Hl.
  destruct (unescape_step html5 a) as [l [r|e]].
  - intros H. cbn in H. discriminate H.
  - intros _. cbn [logs fst] in Hl. subst l. unfold try_except.
    now destruct (fallback a).
Qed.

Lemma materialize_unfold (v : npval) (a : ndarray) :
  as_array v = Ok a ->
  bytes_or_object a = true ->
  materialize_attr_values html5 v
  = (result <- try_except (unescape_step html5 a) (fallback a) ;;
     if np_isscalar (Np v) then x <- lift (subscript0 result) ;; ret (Np x)
     else ret (value_of_result result)).
Proof.
  unfold as_array, bytes_or_object, materialize_attr_values. intros Ha Hk.
  destruct (np_isscalar (Np v)) eqn:Hs.
  - rewrite Ha, bind_lift_ok, Hk. cbn [hasattr_decode]. now rewrite bind_ret.
  - destruct v as [o|x]; [discriminate|]. injection Ha as ->.
    rewrite bind_ret, Hk. cbn [hasattr_decode]. now rewrite bind_ret.
Qed.


Lemma unescape_stable (s : text) :
  unescape html5 s = s ->
  html_unescape html5 (Scalar (NpStr s)) = Ok (Scalar (unescaped s)).
Proof.
  intros Hs. unfold html_unescape, unescaped, has_amp. cbn [text_of].
  destruct (existsb (N.eqb 38) s); [now rewrite Hs|reflexivity].
Qed.

(** The read path gives back the texts that the Text Encoder encoded. *)
Lemma materialize_encoded (x : list text) :
  Forall (stable_text html5) x ->
  exists r, materialize_attr_values html5 (Nd (encoded x)) = ([], Ok (Array r))
            /\ texts_of r = map Some x.
Proof.
  intros Hx. destruct x as [|s0 r0]; [eexists; split; reflexivity|].
  remember (s0 :: r0) as x eqn:Ex.
  assert (Hne : x <> []) by (subst; discriminate).
  exists (mk_array dt_object [length x] (map unescaped x)). split.
  2:{ unfold texts_of. cbn [data]. rewrite map_map. apply map_ext.
      intros s. unfold unescaped. now destruct (has_amp s). }
  assert (Eenc : encoded x = mk_array dt_bytes [length x]
                               (map (fun s => NpBytes (map byte_of s)) x))
    by (subst; reflexivity).
  rewrite Eenc. clear Eenc Ex.
  unfold materialize_attr_values. cbn [np_isscalar]. rewrite bind_ret.
  cbn [dtype_of issubdtype orb hasattr_decode]. rewrite bind_ret.
  assert (E1 : astype dt_str (mk_array dt_bytes [length x]
                                (map (fun s => NpBytes (map byte_of s)) x))
               = Ok (mk_array dt_str [length x] (map NpStr x))).
  { unfold astype. cbn [data shape].
    rewrite (map_res_ok _ (fun o => match o with
                                    | NpBytes b => NpStr (map Byte.to_N b)
                                    | _ => o
                                    end)).
    - cbn. rewrite map_map. do 2 f_equal. apply map_ext_Forall.
      revert Hx. apply Forall_impl. intros t (Ha & _ & _).
      now rewrite to_N_byte_of_ascii.
    - apply Forall_forall. intros o Ho. apply in_map_iff in Ho as (t & <- & Ht).
      rewrite Forall_forall in Hx. destruct (Hx t Ht) as (Ha & Hn & _).
      cbn. rewrite decode_encode_ascii by assumption. cbn.
      now rewrite to_N_byte_of_ascii, strip_text_id. }
  unfold unescape_step. rewrite E1, bind_lift_ok.
  unfold iter_array. cbn [shape data]. rewrite bind_lift_ok.
  rewrite (map_res_ok _ (fun i => match i with
                                  | Scalar (NpStr s) => Scalar (unescaped s)
                                  | _ => i
                                  end)).
  2:{ apply Forall_forall. intros i Hi. apply in_map_iff in Hi as (o & <- & Ho).
      apply in_map_iff in Ho as (t & <- & Ht).
      rewrite Forall_forall in Hx. destruct (Hx t Ht) as (_ & _ & Hu).
      now apply unescape_stable. }
  rewrite bind_lift_ok.
  destruct x as [|t r]; [congruence|].
  cbn [map try_except ret bind app value_of_result
       stack_objects length flat_map].
  rewrite !length_map. do 5 f_equal.
  clear. induction r; simpl; congruence.
Qed.


End ReadPath.

(** *** The claims *)

Section Claims.
Variable container_str : value -> text.
Variable html5 : text -> option text.

(** C1 (amended).  Round trip: for every one-dimensional sequence [x] of
    native text (a list or a tuple of [str], an array of kind 'U', an array
    of objects that are all [str]) whose elements are 7-bit ASCII, do not end
    with a NUL character and are left as they are by [html.unescape] (as is
    every text without [&]), [materialize_attr_values(normalize_attr_values(x))]
    is an array that equals [x] element by element. *)
Theorem roundtrip_stable_text (x : list text) (v : value) :
  text_sequence x v ->
  Forall (stable_text html5) x ->
  roundtrip_holds container_str html5 x v.
Proof.
  intros Hv Hx. unfold roundtrip_holds, roundtrip.
  assert (Hx' : Forall (fun s => ascii_text s = true /\ ends_with_nul s = false) x).
  { revert Hx. apply Forall_impl. intros s (Ha & Hn & _). now split. }
  rewrite (normalize_text_sequence container_str Hv Hx'). cbn [result snd].
  destruct (materialize_encoded Hx) as (r & E & Ht).
  exists r. now rewrite E.
Qed.

(** C2.  Escape correctness: normalizing the list [["café"]] gives a
    byte-string array whose element is [b"caf&#233;"], the decimal character
    reference standing for the [é], and materializing that array gives the
    text ["café"] again. *)
Theorem escape_cafe :
  normalize_attr_values container_str (PyList [PyStr cafe]) false
  = ([], Ok (Nd (mk_array dt_bytes [1%nat] [NpBytes (bts "caf&#233;")])))
  /\ materialize_attr_values html5
       (Nd (mk_array dt_bytes [1%nat] [NpBytes (bts "caf&#233;")]))
     = ([], Ok (Array (mk_array dt_object [1%nat] [PyStr cafe]))).
Proof. split; reflexivity. Qed.

(** C3 (amended).  A numeric [np.matrix] (or sparse matrix, through
    [todense()]) of [r] rows and [c] columns: when neither [r] nor [c] is 1,
    normalization fails with [ValueError("Attribute values must be
    1-dimensional.")]; when [r] is 1 its row is returned, and otherwise when
    [c] is 1 its column, with the elements in their order (a 1x1 matrix is
    accepted too). *)
Theorem singleton_axis (m : ndarray) (v : value) (r c : nat) (uos : bool) :
  (v = Matrix m \/ v = Sparse m) ->
  matrix_of m r c ->
  numeric m = true ->
  (r <> 1%nat -> c <> 1%nat ->
   normalize_attr_values container_str v uos = ([], Raise (ValueError msg_1dim)))
  /\ (r = 1%nat ->
      normalize_attr_values container_str v uos
      = ([], Ok (Nd (mk_array (dtype_of m) [c] (data m)))))
  /\ (r <> 1%nat -> c = 1%nat ->
      normalize_attr_values container_str v uos
      = ([], Ok (Nd (mk_array (dtype_of m) [r] (data m))))).
Proof.
  intros Hv [Hsh Hlen] Hn.
  destruct (matrix_is_not_scalar Hv) as [Hs Ha].
  assert (Hr : nrows m = r) by (unfold nrows; now rewrite Hsh).
  assert (Hc : ncols m = c) by (unfold ncols; now rewrite Hsh).
  repeat split.
  - intros Hr1 Hc1. apply normalize_array_raises; [assumption|].
    rewrite Ha. unfold normalize_matrix. rewrite Hr, Hc.
    apply Nat.eqb_neq in Hr1, Hc1. now rewrite Hr1, Hc1.
  - intros ->. apply normalize_numeric; [assumption| |exact Hn].
    rewrite Ha. unfold normalize_matrix. rewrite Hr. cbn [Nat.eqb].
    unfold row0. rewrite Hc. rewrite firstn_all2 by lia. reflexivity.
  - intros Hr1 ->. apply normalize_numeric; [assumption| |exact Hn].
    rewrite Ha. unfold normalize_matrix. rewrite Hr, Hc.
    apply Nat.eqb_neq in Hr1. rewrite Hr1. cbn [Nat.eqb].
    unfold column0. rewrite Hr, Hc.
    replace r with (length (data m)) by lia. now rewrite chunks_ones.
Qed.

(** C4 (amended).  An input that is not a scalar and whose container kind
    is none of list, tuple, [np.ndarray], [np.matrix], sparse matrix makes
    the Shape Coercer, and hence normalization, fail with [ValueError]
    ("Argument must be a list, tuple, numpy matrix, numpy ndarray or sparse
    matrix."). *)
Theorem unsupported_container (v : value) (uos : bool) :
  np_isscalar v = false ->
  accepted_container v = false ->
  normalize_attr_array v = Raise (ValueError msg_container)
  /\ normalize_attr_values container_str v uos
     = ([], Raise (ValueError msg_container)).
Proof.
  intros Hs Hacc.
  assert (E : normalize_attr_array v = Raise (ValueError msg_container)).
  { destruct v as [[o|a]| | | | |]; try discriminate; reflexivity. }
  split; [exact E|]. now apply normalize_array_raises.
Qed.





(** C9.  For every stored array of native unicode-text kind,
    [materialize_attr_values] returns the same texts, as [str] objects in an
    array of the same shape: nothing is unescaped, so a character reference
    in such a text stays as it is. *)
Theorem unicode_unchanged (a : ndarray) :
  dtype_of a = dt_str ->
  wf_array a = true ->
  materialize_attr_values html5 (Nd a)
  = ([], Ok (Array (mk_array dt_object (shape a) (map to_python (data a)))))
  /\ texts_of (mk_array dt_object (shape a) (map to_python (data a)))
     = texts_of a.
Proof.
  intros Hd Hwf. split.
  - unfold wf_array in Hwf. apply andb_true_iff in Hwf as [_ Hcells].
    rewrite Hd in Hcells.
    unfold materialize_attr_values. cbn [np_isscalar]. rewrite bind_ret, Hd.
    cbn [issubdtype orb]. unfold astype.
    rewrite (setitem_str_wf _ Hcells). reflexivity.
  - unfold texts_of. cbn [data]. apply text_of_to_python.
Qed.


End Claims.

(** *** Instances and counterexamples *)

Lemma roundtrip_stable_text_witness :
  Forall (stable_text html5_common) [txt "gene"; txt "R&D"]
  /\ roundtrip_holds no_container_str html5_common [txt "gene"; txt "R&D"]
       (PyList (map PyStr [txt "gene"; txt "R&D"])).
Proof.
  assert (H : Forall (stable_text html5_common) [txt "gene"; txt "R&D"])
    by (repeat constructor).
  split; [exact H|].
  apply (roundtrip_stable_text no_container_str (seq_list _) H).
Defined.

(** The round trip of the ASCII text ["&#65;"] gives ["A"], and that of
    ["a\0"] gives ["a"]. *)
Lemma roundtrip_counterexample :
  (Forall (fun s => ascii_text s = true) [txt "&#65;"]
   /\ roundtrip no_container_str html5_common (PyList [PyStr (txt "&#65;")])
      = Ok (Array (mk_array dt_object [1%nat] [PyStr (txt "A")]))
   /\ ~ roundtrip_holds no_container_str html5_common [txt "&#65;"]
          (PyList [PyStr (txt "&#65;")]))
  /\ (Forall (fun s => ascii_text s = true) [[97; 0]%N]
      /\ roundtrip no_container_str html5_common (PyList [PyStr [97; 0]%N])
         = Ok (Array (mk_array dt_object [1%nat] [NpStr (txt "a")]))
      /\ ~ roundtrip_holds no_container_str html5_common [[97; 0]%N]
             (PyList [PyStr [97; 0]%N])).
Proof.
  split; (split; [repeat constructor|]; split; [reflexivity|]);
    intros (r & E & Ht); vm_compute in E; injection E as <-; discriminate Ht.
Qed.

Lemma singleton_axis_witness :
  matrix_of a23 2 3 /\ numeric a23 = true
  /\ normalize_attr_values no_container_str (Matrix a23) false
     = ([], Raise (ValueError msg_1dim)).
Proof.
  assert (H23 : matrix_of a23 2 3) by (split; reflexivity).
  split; [exact H23|]. split; [reflexivity|].
  apply (proj1 (singleton_axis no_container_str false
                  (or_introl eq_refl) H23 eq_refl)); discriminate.
Defined.

(** A dense 2x3 [np.ndarray] is accepted as it is (line 33 checks no
    shape), a 1x1 matrix is accepted, and the 2x3 matrix is refused with a
    [ValueError]. *)
Lemma singleton_axis_counterexample :
  (numeric a23 = true /\ shape a23 = [2; 3]%nat
   /\ normalize_attr_values no_container_str (Array a23) false
      = ([], Ok (Nd a23)))
  /\ normalize_attr_values no_container_str (Matrix m11) false
     = ([], Ok (Nd (mk_array (dt_int I64) [1%nat] [NpInt I64 7%Z])))
  /\ normalize_attr_values no_container_str (Matrix a23) false
     = ([], Raise (ValueError msg_1dim)).
Proof. repeat split. Qed.

Lemma unsupported_container_witness :
  np_isscalar Other = false /\ accepted_container Other = false
  /\ normalize_attr_values no_container_str Other false
     = ([], Raise (ValueError msg_container)).
Proof.
  split; [reflexivity|]. split; [reflexivity|].
  exact (proj2 (unsupported_container no_container_str Other false
                  eq_refl eq_refl)).
Defined.

(** The exception is a [ValueError], not a [TypeError]. *)
Lemma unsupported_container_counterexample :
  np_isscalar Other = false /\ accepted_container Other = false
  /\ normalize_attr_array Other = Raise (ValueError msg_container)
  /\ normalize_attr_array Other <> Raise TypeError
  /\ result (normalize_attr_values no_container_str Other false)
     <> Raise TypeError.
Proof. repeat split; discriminate. Qed.








Lemma unicode_unchanged_witness :
  wf_array amp_array = true
  /\ materialize_attr_values html5_common (Nd amp_array)
     = ([], Ok (Array (mk_array dt_object [2%nat]
                         [PyStr (txt "&amp;"); PyStr (txt "x")]))).
Proof.
  split; [reflexivity|].
  exact (proj1 (@unicode_unchanged html5_common amp_array eq_refl eq_refl)).
Defined.


(* ------------------------------------------------------------------------- *)
(** ** Further properties of the two pipelines *)

(** *** Decimal character references *)

Local Open Scope N_scope.

Lemma int_of_acc (u : Decimal.uint) (acc : positive) :
  fold_left (fun a c => a * 10 + digit_val c) (uint_text u) (Npos acc)
  = Npos (Pos.of_uint_acc u acc).
Proof.
  revert acc.
  induction u; intros acc; cbn [uint_text fold_left Pos.of_uint_acc];
    [reflexivity
    | rewrite <- IHu; f_equal;
      match goal with
      | |- context [digit_val ?c] =>
          let v := eval vm_compute in (digit_val c) in
          change (digit_val c) with v
      end; lia ..].
Qed.

Lemma int_of_uint (u : Decimal.uint) : int_of 10 (uint_text u) = N.of_uint u.
Proof.
  unfold int_of, N.of_uint.
  induction u; cbn [uint_text fold_left Pos.of_uint];
    [reflexivity | exact IHu | apply (int_of_acc u) ..].
Qed.

(** [int(str(c)) == c]. *)
Lemma int_of_dec (c : N) : int_of 10 (dec_of_N c) = c.
Proof. unfold dec_of_N. rewrite int_of_uint. apply DecimalN.Unsigned.of_to. Qed.

Lemma uint_text_digits (u : Decimal.uint) : forallb is_digit (uint_text u) = true.
Proof. induction u; cbn; auto. Qed.

Lemma dec_of_N_cons (c : N) : exists d ds, dec_of_N c = d :: ds.
Proof.
  destruct (dec_of_N c) as [|d ds] eqn:E; [|eauto].
  pose proof (int_of_dec c) as H. rewrite E in H. cbn in H. subst c. discriminate E.
Qed.

Lemma take_while_digits (ds rest : text) (n : nat) :
  forallb is_digit ds = true ->
  (length ds <= n)%nat ->
  match rest with c :: _ => is_digit c = false | [] => True end ->
  take_while n is_digit (ds ++ rest) = ds.
Proof.
  revert n. induction ds as [|d ds IH]; intros n Hd Hn Hr.
  - destruct n; [reflexivity|]. destruct rest as [|c r]; [reflexivity|].
    cbn. now rewrite Hr.
  - cbn in Hd. apply andb_prop in Hd as [Hd1 Hd2].
    destruct n; [cbn in Hn; lia|]. cbn. rewrite Hd1. f_equal.
    apply IH; auto. cbn in Hn. lia.
Qed.

Lemma rstrip_nul_snoc_keep {A} (p : A -> bool) (s : list A) (c : A) :
  p c = false -> rstrip_nul p (s ++ [c]) = s ++ [c].
Proof.
  intros Hc. induction s as [|x s IH]; cbn.
  - now rewrite Hc.
  - unfold rstrip_nul in IH. rewrite IH. destruct (s ++ [c]) eqn:E; [|reflexivity].
    destruct s; discriminate E.
Qed.

Lemma rstrip_nul_snoc_drop {A} (p : A -> bool) (s : list A) (c d : A) :
  p c = false -> p d = true -> rstrip_nul p ((s ++ [c]) ++ [d]) = s ++ [c].
Proof.
  intros Hc Hd. induction s as [|x s IH]; cbn.
  - now rewrite Hd, Hc.
  - unfold rstrip_nul in IH. rewrite IH. destruct (s ++ [c]) eqn:E; [|reflexivity].
    destruct s; discriminate E.
Qed.

Lemma digits_rstrip (ds : text) :
  forallb is_digit ds = true -> rstrip_semicolon (ds ++ [59]) = ds.
Proof.
  intros Hd. destruct ds as [|d ds]; [reflexivity|].
  destruct (@exists_last _ (d :: ds)) as [s [c E]]; [discriminate|].
  rewrite E in *. apply rstrip_nul_snoc_drop; [|reflexivity].
  rewrite forallb_app in Hd. apply andb_prop in Hd as [_ Hc]. cbn in Hc.
  rewrite andb_true_r in Hc. unfold is_digit in Hc.
  destruct (N.eqb_spec 59 c); [subst c; discriminate Hc | reflexivity].
Qed.

(** The match that the expression finds just after the [&] of a decimal
    reference written by the encoder. *)
Lemma match_charref_dec (c : N) (rest : text) :
  match_charref (35 :: dec_of_N c ++ 59 :: rest)
  = Some (35 :: dec_of_N c ++ [59]).
Proof.
  destruct (dec_of_N_cons c) as (d & ds & E).
  pose proof (uint_text_digits (N.to_uint c)) as Hd. fold (dec_of_N c) in Hd.
  unfold match_charref.
  rewrite (@take_while_digits (dec_of_N c) (59 :: rest)); [| exact Hd | | reflexivity].
  2:{ rewrite length_app. cbn. lia. }
  rewrite E. unfold with_semicolon. rewrite <- E.
  replace (35 :: dec_of_N c ++ 59 :: rest) with ((35 :: dec_of_N c) ++ 59 :: rest)
    by reflexivity.
  rewrite skipn_app, skipn_all, Nat.sub_diag. reflexivity.
Qed.

Lemma xmlcharref_ascii (c : N) : ascii_text (xmlcharref c) = true.
Proof.
  unfold xmlcharref. cbn. unfold ascii_text. rewrite forallb_app.
  fold (ascii_text (dec_of_N c)). unfold dec_of_N. now rewrite uint_text_ascii.
Qed.

Lemma escaped_cons (c : N) (s : text) :
  escaped (c :: s)
  = ((if is_ascii c then [c] else xmlcharref c) ++ escaped s)%list.
Proof.
  unfold escaped, encode_xmlcharrefreplace. cbn [flat_map].
  rewrite map_app. f_equal. unfold encode_char_xml.
  destruct (is_ascii c) eqn:E.
  - cbn. f_equal. apply byte_of_to_N. now apply is_ascii_lt.
  - apply to_N_byte_of_ascii, xmlcharref_ascii.
Qed.

Lemma read_back_short (c : N) : (length (read_back c) <= 1)%nat.
Proof.
  unfold read_back. destruct (is_ascii c); [cbn; lia|].
  destruct (invalid_charrefs c); [cbn; lia|].
  destruct ((0xD800 <=? c) && (c <=? 0xDFFF) || (0x10FFFF <? c)); [cbn; lia|].
  destruct (invalid_codepoint c); cbn; lia.
Qed.

Lemma read_back_survives (c : N) : read_back c = [c] <-> survives c = true.
Proof.
  unfold read_back, survives. destruct (is_ascii c); [cbn; tauto|]. cbn [orb].
  destruct (invalid_charrefs c) as [c'|].
  - rewrite N.eqb_eq. split; [intros [= ->]; reflexivity | intros ->; reflexivity].
  - destruct ((0xD800 <=? c) && (c <=? 0xDFFF) || (0x10FFFF <? c)) eqn:E1;
      cbn [negb andb].
    + split; [intros [= H] | discriminate].
      subst c. discriminate E1.
    + destruct (invalid_codepoint c); cbn; split; congruence.
Qed.

Lemma flat_map_short_length {A} (f : A -> list A) (s : list A) :
  (forall c, (length (f c) <= 1)%nat) ->
  (length (flat_map f s) <= length s)%nat.
Proof.
  intros Hf. induction s as [|c s IH]; [cbn; lia|].
  cbn. rewrite length_app. specialize (Hf c). lia.
Qed.

Lemma flat_map_short_id {A} (f : A -> list A) (s : list A) :
  (forall c, (length (f c) <= 1)%nat) ->
  flat_map f s = s <-> Forall (fun c => f c = [c]) s.
Proof.
  intros Hf. induction s as [|c s IH]; [cbn; split; auto|].
  cbn [flat_map]. split.
  - intros H. pose proof (flat_map_short_length f s Hf) as Hl.
    destruct (f c) as [|d [|? ?]] eqn:E.
    + cbn in H. rewrite H in Hl. cbn in Hl. lia.
    + injection H as -> H. constructor; [exact E | now apply IH].
    + specialize (Hf c). rewrite E in Hf. cbn in Hf. lia.
  - intros H. inversion H as [|? ? Hc Hs]; subst. rewrite Hc. cbn. f_equal.
    now apply IH.
Qed.

Section Charref.
Variable html5 : text -> option text.

Lemma replace_charref_dec (c : N) :
  replace_charref html5 (35 :: dec_of_N c ++ [59])
  = match invalid_charrefs c with
    | Some c' => [c']
    | None =>
        if (0xD800 <=? c) && (c <=? 0xDFFF) || (0x10FFFF <? c) then [0xFFFD]
        else if invalid_codepoint c then [] else [c]
    end.
Proof.
  destruct (dec_of_N_cons c) as (d & ds & E).
  pose proof (uint_text_digits (N.to_uint c)) as Hd. fold (dec_of_N c) in Hd.
  unfold replace_charref.
  assert (Hx : (d =? 120) || (d =? 88) = false).
  { rewrite E in Hd. cbn in Hd. apply andb_prop in Hd as [Hd _].
    unfold is_digit in Hd.
    destruct (N.eqb_spec d 120); [subst d; discriminate Hd|].
    destruct (N.eqb_spec d 88); [subst d; discriminate Hd|]. reflexivity. }
  rewrite E. cbn [app]. rewrite Hx.
  change (d :: ds ++ [59])%list with ((d :: ds) ++ [59])%list. rewrite <- E.
  rewrite (digits_rstrip _ Hd), int_of_dec. reflexivity.
Qed.

Lemma sub_charref_skip (p rest : text) :
  sub_charref html5 (length p) (p ++ rest) = sub_charref html5 0 rest.
Proof. induction p as [|c p IH]; [reflexivity | exact IH]. Qed.

Lemma sub_charref_amp (r : text) :
  sub_charref html5 0 (38 :: r)
  = match match_charref r with
    | Some g => (replace_charref html5 g ++ sub_charref html5 (length g) r)%list
    | None => 38 :: sub_charref html5 0 r
    end.
Proof. reflexivity. Qed.

Lemma sub_charref_no_amp (s : text) :
  has_amp s = false -> sub_charref html5 0 s = s.
Proof.
  unfold has_amp. induction s as [|c s IH]; [reflexivity|].
  cbn [existsb sub_charref]. intros H. apply orb_false_elim in H as [Hc Hs].
  rewrite N.eqb_sym, Hc. f_equal. auto.
Qed.

Lemma unescape_sub (s : text) : unescape html5 s = sub_charref html5 0 s.
Proof.
  unfold unescape. destruct (existsb (N.eqb 38) s) eqn:E; [reflexivity|].
  symmetry. now apply sub_charref_no_amp.
Qed.

(** Unescaping what the encoder wrote, character by character. *)
Lemma unescape_escaped (s : text) :
  has_amp s = false ->
  unescape html5 (escaped s) = flat_map read_back s.
Proof.
  rewrite unescape_sub. unfold has_amp.
  induction s as [|c s IH]; [reflexivity|].
  cbn [existsb]. intros H. apply orb_false_elim in H as [Hc Hs].
  rewrite escaped_cons. cbn [flat_map]. unfold read_back at 1.
  destruct (is_ascii c) eqn:E.
  - cbn [app sub_charref]. rewrite N.eqb_sym, Hc. f_equal. auto.
  - unfold xmlcharref.
    change ((38 :: 35 :: dec_of_N c ++ [59]) ++ escaped s)%list
      with (38 :: (35 :: dec_of_N c ++ [59]) ++ escaped s)%list.
    rewrite sub_charref_amp.
    replace ((35 :: dec_of_N c ++ [59]) ++ escaped s)%list
      with (35 :: dec_of_N c ++ 59 :: escaped s)%list at 1
      by (cbn [app]; now rewrite <- app_assoc).
    rewrite match_charref_dec, replace_charref_dec, sub_charref_skip.
    f_equal. auto.
Qed.

Lemma escape_undone (s : text) :
  has_amp s = false ->
  unescape html5 (escaped s) = s <-> forallb survives s = true.
Proof.
  intros Ha. rewrite unescape_escaped by exact Ha.
  destruct (@flat_map_short_id _ read_back s read_back_short) as [H1 H2].
  split; intros H.
  - apply H1 in H. apply forallb_forall. intros c Hc. apply read_back_survives.
    rewrite Forall_forall in H. auto.
  - apply H2, Forall_forall. intros c Hc. apply read_back_survives.
    rewrite forallb_forall in H. auto.
Qed.

End Charref.

Local Close Scope N_scope.

(** *** Byte strings and their texts *)

Lemma nul_byte (b : byte) : N.eqb 0 (Byte.to_N b) = Byte.eqb x00 b.
Proof. destruct b; reflexivity. Qed.

Lemma strip_text_bytes (b : bytes) :
  strip_text (map Byte.to_N b) = map Byte.to_N (strip_bytes b).
Proof.
  apply rstrip_nul_map. apply Forall_forall. intros c _. apply nul_byte.
Qed.

Lemma escaped_ascii (s : text) : ascii_text (escaped s) = true.
Proof.
  induction s as [|c s IH]; [reflexivity|].
  rewrite escaped_cons. unfold ascii_text. rewrite forallb_app.
  fold (ascii_text (escaped s)). rewrite IH, andb_true_r.
  destruct (is_ascii c) eqn:E; [cbn; now rewrite E | apply xmlcharref_ascii].
Qed.

(** The bytes written for a text without trailing NUL do not end with a NUL
    byte: numpy stores them whole. *)
Lemma strip_bytes_escaped (s : text) :
  ends_with_nul s = false ->
  strip_bytes (encode_xmlcharrefreplace s) = encode_xmlcharrefreplace s.
Proof.
  intros Hn. destruct s as [|c0 s0]; [reflexivity|].
  destruct (@exists_last _ (c0 :: s0)) as [s [c E]]; [discriminate|].
  rewrite E in *. clear E c0 s0.
  unfold ends_with_nul in Hn. rewrite last_last in Hn.
  unfold encode_xmlcharrefreplace. rewrite flat_map_app. cbn [flat_map].
  rewrite app_nil_r. unfold encode_char_xml.
  destruct (is_ascii c) eqn:Ea.
  - apply rstrip_nul_snoc_keep. rewrite byte_of_nul by exact Ea.
    now rewrite N.eqb_sym.
  - unfold xmlcharref.
    change (38 :: 35 :: dec_of_N c ++ [59])%N
      with ((38 :: 35 :: dec_of_N c) ++ [59])%N.
    rewrite map_app, app_assoc. now apply rstrip_nul_snoc_keep.
Qed.

Lemma text_of_read_text (html5 : text -> option text) (s : text) :
  text_of (read_text html5 s) = Some (unescape html5 s).
Proof.
  unfold read_text, unescape, has_amp.
  destruct (existsb (N.eqb 38) s); reflexivity.
Qed.

Lemma stack_scalars (os : list pyobj) :
  stack_objects (map Scalar os) = mk_array dt_object [length os] os.
Proof.
  assert (E : forall l : list pyobj,
            flat_map (fun x => match x with
                               | Scalar o => [o]
                               | Nd a => data a
                               end) (map Scalar l) = l).
  { induction l as [|o l IH]; [reflexivity|]. cbn. now rewrite IH. }
  destruct os as [|o os]; [reflexivity|].
  unfold stack_objects. cbn [map].
  change (Scalar o :: map Scalar os) with (map Scalar (o :: os)).
  now rewrite E, length_map.
Qed.

(** Reading well-formed 'S' cells into 'U' cells: the ASCII codec is
    strict. *)
Lemma astype_str_cells (l : list pyobj) :
  forallb (cell_ok dt_bytes) l = true ->
  forallb ascii_cell l = true ->
  map_res (setitem dt_str) l
  = Ok (map (fun o => NpStr (map Byte.to_N (bytes_of o))) l).
Proof.
  induction l as [|o r IH]; [reflexivity|].
  cbn [forallb]. intros Hw Ha.
  apply andb_prop in Hw as [Ho Hr]. apply andb_prop in Ha as [Hao Har].
  cbn [map_res map]. rewrite (IH Hr Har).
  destruct o; try discriminate Ho. cbn in Ho.
  destruct (list_eq_dec Byte.byte_eq_dec (strip_bytes b) b) as [Eb|];
    [|discriminate Ho].
  unfold ascii_cell, ascii_bytes in Hao. cbn [bytes_of] in Hao.
  cbn [setitem bytes_of]. unfold decode_ascii. rewrite Hao. cbn.
  now rewrite strip_text_bytes, Eb.
Qed.

Lemma astype_str_raises (l : list pyobj) :
  forallb (cell_ok dt_bytes) l = true ->
  forallb ascii_cell l = false ->
  map_res (setitem dt_str) l = Raise UnicodeDecodeError.
Proof.
  induction l as [|o r IH]; [discriminate|].
  cbn [forallb]. intros Hw Ha.
  apply andb_prop in Hw as [Ho Hr].
  destruct o; try discriminate Ho.
  cbn [map_res setitem]. unfold decode_ascii.
  unfold ascii_cell at 1, ascii_bytes in Ha. cbn [bytes_of] in Ha.
  destruct (ascii_text (map Byte.to_N b)); cbn in Ha |- *; [|reflexivity].
  now rewrite (IH Hr Ha).
Qed.


Section ReadTexts.
Variable html5 : text -> option text.

Lemma unescape_texts (ts : list text) :
  map_res (html_unescape html5) (map Scalar (map NpStr ts))
  = Ok (map Scalar (map (read_text html5) ts)).
Proof.
  induction ts as [|s r IH]; [reflexivity|].
  cbn [map map_res]. rewrite IH.
  unfold html_unescape, read_text, has_amp. cbn [text_of].
  destruct (existsb (N.eqb 38) s); reflexivity.
Qed.

(** Line 99 on a one-dimensional array whose elements can be read as
    text. *)
Lemma unescape_step_texts (a : ndarray) (n : nat) (ts : list text) :
  shape a = [n] ->
  map_res (setitem dt_str) (data a) = Ok (map NpStr ts) ->
  unescape_step html5 a
  = ([], Ok (RArray (mk_array dt_object [length ts]
                       (map (read_text html5) ts)))).
Proof.
  intros Hs Hd. unfold unescape_step, astype. rewrite Hd, Hs.
  cbn [res_bind]. rewrite bind_lift_ok.
  unfold iter_array. cbn [shape data]. rewrite bind_lift_ok.
  rewrite unescape_texts, bind_lift_ok, stack_scalars, length_map.
  reflexivity.
Qed.

Lemma materialize_texts (a : ndarray) (n : nat) (ts : list text) :
  bytes_or_object a = true ->
  shape a = [n] ->
  map_res (setitem dt_str) (data a) = Ok (map NpStr ts) ->
  materialize_attr_values html5 (Nd a)
  = ([], Ok (Array (mk_array dt_object [length ts]
                      (map (read_text html5) ts)))).
Proof.
  intros Hk Hs Hd.
  rewrite (@materialize_unfold html5 (Nd a) a eq_refl Hk).
  rewrite (@unescape_step_texts a n ts Hs Hd). reflexivity.
Qed.

(** The read path on a one-dimensional array of ASCII byte strings. *)
Lemma materialize_ascii_cells (a : ndarray) (n : nat) :
  dtype_of a = dt_bytes -> shape a = [n] -> wf_array a = true ->
  forallb ascii_cell (data a) = true ->
  materialize_attr_values html5 (Nd a)
  = ([], Ok (Array (mk_array dt_object [n] (map (read_cell html5) (data a))))).
Proof.
  intros Hd Hs Hw Ha.
  pose proof Hw as Hw'. unfold wf_array in Hw'. rewrite Hd, Hs in Hw'.
  apply andb_prop in Hw' as [Hl Hc]. apply Nat.eqb_eq in Hl.
  cbn in Hl. rewrite Nat.mul_1_r in Hl.
  rewrite (@materialize_texts a n
             (map (fun o => map Byte.to_N (bytes_of o)) (data a))).
  - rewrite length_map, Hl, map_map. reflexivity.
  - unfold bytes_or_object. now rewrite Hd.
  - exact Hs.
  - rewrite map_map. now apply astype_str_cells.
Qed.

End ReadTexts.

Section WriteTexts.
Variable container_str : value -> text.

(** The Text Encoder on texts of any characters. *)
Lemma encode_any (g : text -> npval) (x : list text) :
  (forall s, encode_xml (g s) = Ok (PyBytes (encode_xmlcharrefreplace s))) ->
  x <> [] ->
  Forall (fun s => ends_with_nul s = false) x ->
  (bs <- lift (map_res encode_xml (map g x)) ;; lift (np_array bs))
  = ([], Ok (escaped_array x)).
Proof.
  intros Hg Hne Hx.
  assert (E : map_res encode_xml (map g x)
              = Ok (map PyBytes (map encode_xmlcharrefreplace x))).
  { clear -Hg. induction x as [|s r IH]; [reflexivity|].
    cbn [map map_res]. now rewrite Hg, IH. }
  rewrite E, bind_lift_ok.
  rewrite np_array_bytes by (destruct x; [congruence|discriminate]).
  unfold escaped_array, lift. rewrite !length_map, map_map. do 3 f_equal.
  apply map_ext_Forall. revert Hx. apply Forall_impl. intros t Hn.
  now rewrite strip_bytes_escaped.
Qed.

Lemma normalize_strings_unicode_any (x : list text) :
  x <> [] ->
  Forall (fun s => ends_with_nul s = false) x ->
  normalize_attr_strings container_str (mk_array dt_str [length x] (map NpStr x))
  = ([], Ok (escaped_array x)).
Proof.
  intros Hne Hx. unfold normalize_attr_strings.
  cbn [dtype_of issubdtype orb iter_array shape data].
  rewrite bind_lift_ok, map_map.
  exact (encode_any (fun s => Scalar (NpStr s)) (fun s => eq_refl) Hne Hx).
Qed.

Lemma normalize_text_any (x : list text) (v : value) :
  text_sequence x v ->
  x <> [] ->
  Forall (fun s => ends_with_nul s = false) x ->
  normalize_attr_values container_str v false = ([], Ok (Nd (escaped_array x))).
Proof.
  intros Hv Hne Hx.
  assert (Hst : map (fun s => NpStr (strip_text s)) x = map NpStr x).
  { apply map_ext_Forall. revert Hx. apply Forall_impl.
    intros s Hn. now rewrite strip_text_id. }
  pose proof (normalize_strings_unicode_any Hne Hx) as HU.
  assert (Hl : forall l, normalize_attr_array l = np_array (map PyStr x) ->
               np_isscalar l = false ->
               normalize_attr_values container_str l false
               = ([], Ok (Nd (escaped_array x)))).
  { intros l El Hs. unfold normalize_attr_values. rewrite Hs, bind_ret, El.
    rewrite np_array_strs by assumption. rewrite Hst.
    rewrite bind_lift_ok. cbn [dtype_of issubdtype orb].
    rewrite HU. reflexivity. }
  destruct Hv.
  - now apply Hl.
  - now apply Hl.
  - unfold normalize_attr_values, Array.
    cbn [np_isscalar]. rewrite bind_ret.
    cbn [normalize_attr_array]. rewrite bind_lift_ok.
    cbn [dtype_of issubdtype orb].
    rewrite HU. reflexivity.
  - unfold normalize_attr_values, Array.
    cbn [np_isscalar]. rewrite bind_ret.
    cbn [normalize_attr_array]. rewrite bind_lift_ok.
    cbn [dtype_of issubdtype orb].
    unfold normalize_attr_strings.
    cbn [dtype_of issubdtype orb iter_array shape data].
    rewrite bind_lift_ok.
    pose proof (all_str_strs x) as Hall. unfold all_str in Hall. rewrite Hall.
    rewrite map_map.
    rewrite (encode_any (fun s => Scalar (PyStr s)) (fun s => eq_refl) Hne Hx).
    reflexivity.
Qed.

End WriteTexts.

Lemma escaped_array_cells (x : list text) :
  Forall (fun s => ends_with_nul s = false) x ->
  wf_array (escaped_array x) = true
  /\ forallb ascii_cell (data (escaped_array x)) = true.
Proof.
  intros Hx. unfold wf_array, escaped_array. cbn [dtype_of shape data].
  rewrite length_map. cbn [size_of fold_right]. rewrite Nat.mul_1_r, Nat.eqb_refl.
  cbn [andb]. split.
  - apply forallb_forall. intros o Ho. apply in_map_iff in Ho as (s & <- & Hs).
    rewrite Forall_forall in Hx.
    cbn. rewrite strip_bytes_escaped by auto.
    destruct (list_eq_dec Byte.byte_eq_dec _ _); [reflexivity|congruence].
  - apply forallb_forall. intros o Ho. apply in_map_iff in Ho as (s & <- & _).
    apply escaped_ascii.
Qed.

Section Extras.
Variable container_str : value -> text.
Variable html5 : text -> option text.

(** X1.  The Text Encoder never fails on native text: for every non-empty
    one-dimensional sequence of texts of any characters (without trailing
    NUL), [normalize_attr_values] logs nothing and returns the byte-string
    array of the same length in which every character outside the 7-bit
    range is written as its decimal reference [&#N;]; that array is well
    formed and all its bytes are 7-bit ASCII. *)
Theorem text_encoder_total (x : list text) (v : value) :
  text_sequence x v ->
  x <> [] ->
  Forall (fun s => ends_with_nul s = false) x ->
  normalize_attr_values container_str v false = ([], Ok (Nd (escaped_array x)))
  /\ wf_array (escaped_array x) = true
  /\ forallb ascii_cell (data (escaped_array x)) = true.
Proof.
  intros Hv Hne Hx. split.
  - now apply normalize_text_any.
  - now apply escaped_array_cells.
Qed.

(** The read path on what the Text Encoder wrote. *)
Lemma materialize_escaped (x : list text) :
  Forall (fun s => ends_with_nul s = false) x ->
  materialize_attr_values html5 (Nd (escaped_array x))
  = ([], Ok (Array (mk_array dt_object [length x]
                      (map (fun s => read_text html5 (escaped s)) x)))).
Proof.
  intros Hx. destruct (escaped_array_cells Hx) as [Hw Ha].
  rewrite (@materialize_ascii_cells html5 (escaped_array x) (length x)
             eq_refl eq_refl Hw Ha).
  unfold escaped_array. cbn [data]. now rewrite map_map.
Qed.

(** X2.  Round trip beyond ASCII: for a one-dimensional sequence of texts
    that hold no [&] and do not end with a NUL character, the round trip
    gives an array that equals the input element by element exactly when
    every character survives its decimal reference, that is, when it is
    ASCII or a code point that [html.unescape] reads back as itself (not a
    surrogate, not a C1 control that HTML 5 reads as Windows-1252, not a
    non-character). *)
Theorem roundtrip_escaped (x : list text) (v : value) :
  text_sequence x v ->
  Forall (fun s => has_amp s = false /\ ends_with_nul s = false) x ->
  roundtrip_holds container_str html5 x v
  <-> Forall (fun s => forallb survives s = true) x.
Proof.
  intros Hv Hx.
  assert (Hn : Forall (fun s => ends_with_nul s = false) x)
    by (revert Hx; apply Forall_impl; now intros s [_ H]).
  destruct x as [|s0 r0].
  { split; [constructor|]. intros _. unfold roundtrip_holds, roundtrip.
    rewrite (normalize_text_sequence container_str Hv (Forall_nil _)).
    eexists. split; reflexivity. }
  remember (s0 :: r0) as x eqn:Ex.
  assert (Hne : x <> []) by (subst; discriminate). clear Ex s0 r0.
  unfold roundtrip_holds, roundtrip.
  rewrite (normalize_text_any container_str Hv Hne Hn). cbn [result snd].
  rewrite (materialize_escaped Hn). cbn [snd].
  assert (Ht : texts_of (mk_array dt_object [length x]
                           (map (fun s => read_text html5 (escaped s)) x))
               = map (fun s => Some (unescape html5 (escaped s))) x).
  { unfold texts_of. cbn [data]. rewrite map_map. apply map_ext.
    intros s. apply text_of_read_text. }
  split.
  - intros (r & [= <-] & Hr). rewrite Ht in Hr.
    clear Ht Hne Hn Hv. induction Hx as [|s r [Ha _] Hx IH]; [constructor|].
    cbn [map] in Hr. injection Hr as Hs Hr.
    constructor; [now apply (@escape_undone html5 s Ha) | now apply IH].
  - intros Hsv. eexists. split; [reflexivity|]. rewrite Ht.
    apply map_ext_Forall.
    clear Ht Hne Hn Hv. induction Hx as [|s r [Ha _] Hx IH]; [constructor|].
    inversion Hsv as [|? ? H1 H2]; subst.
    constructor; [f_equal; now apply (@escape_undone html5 s Ha) | now apply IH].
Qed.







(** *** Numbers and booleans *)

Lemma materialize_other_kind (a : ndarray) :
  bytes_or_object a = false ->
  issubdtype (dtype_of a) np_str_ = false ->
  materialize_attr_values html5 (Nd a) = ([], Ok (Array a)).
Proof.
  unfold bytes_or_object. intros Hk Hu. unfold materialize_attr_values.
  cbn [np_isscalar]. rewrite bind_ret, Hk.
  assert (E : issubdtype (dtype_of a) np_str_
              || issubdtype (dtype_of a) np_unicode_ = false)
    by (destruct (dtype_of a); try reflexivity; discriminate Hu).
  rewrite E, bind_ret. reflexivity.
Qed.

Lemma numeric_not_text (a : ndarray) :
  numeric a = true ->
  bytes_or_object a = false /\ issubdtype (dtype_of a) np_str_ = false.
Proof.
  unfold numeric, bytes_or_object. destruct (dtype_of a); try discriminate; now split.
Qed.

(** X6.  Numbers pass through both pipelines untouched: an array of integer
    or floating kind, of any shape, is returned as it is by the write path,
    whatever [use_object_strings] says, and by the read path, and nothing is
    logged. *)
Theorem numeric_roundtrip (a : ndarray) (uos : bool) :
  numeric a = true ->
  normalize_attr_values container_str (Array a) uos = ([], Ok (Nd a))
  /\ materialize_attr_values html5 (Nd a) = ([], Ok (Array a)).
Proof.
  intros Hn. split.
  - now apply normalize_numeric.
  - destruct (numeric_not_text a Hn). now apply materialize_other_kind.
Qed.

Lemma np_array_bools (bs : list bool) :
  bs <> [] ->
  np_array (map PyBool bs) = Ok (mk_array dt_bool [length bs] (map NpBool bs)).
Proof.
  intros Hne. unfold np_array, np_array_as.
  rewrite (@result_dtype_const dt_bool).
  - rewrite (map_res_ok _ (fun o => match o with PyBool b => NpBool b | _ => o end)).
    + simpl. now rewrite length_map, map_map.
    + apply Forall_forall. intros o Ho.
      apply in_map_iff in Ho as (b & <- & _). reflexivity.
  - destruct bs; [congruence|discriminate].
  - apply Forall_forall. intros o Ho.
    apply in_map_iff in Ho as (b & <- & _). reflexivity.
Qed.

Lemma normalize_bool_array (a : value) (sh : list nat) (bs : list bool)
    (uos : bool) :
  np_isscalar a = false ->
  normalize_attr_array a = Ok (mk_array dt_bool sh (map NpBool bs)) ->
  normalize_attr_values container_str a uos
  = ([], Ok (Nd (mk_array (dt_int U8) sh (map ubyte_of_bool bs)))).
Proof.
  intros Hs Ha. unfold normalize_attr_values.
  rewrite Hs, bind_ret, Ha, bind_lift_ok. cbn [dtype_of issubdtype orb].
  rewrite bind_ret. unfold astype_ubyte. cbn [shape data]. now rewrite map_map.
Qed.

(** X7.  Booleans are stored as unsigned bytes and stay so: a non-empty
    list or tuple of [bool], or an array of boolean kind of any shape, is
    normalized to the uint8 array of the same shape that holds 1 for [True]
    and 0 for [False]; the read path returns that array as it is, so the
    values do not come back as booleans. *)
Theorem booleans_as_bytes (bs : list bool) (sh : list nat) (v : value)
    (uos : bool) :
  bs <> [] ->
  (v = PyList (map PyBool bs) /\ sh = [length bs]
   \/ v = PyTuple (map PyBool bs) /\ sh = [length bs]
   \/ v = Array (mk_array dt_bool sh (map NpBool bs))) ->
  normalize_attr_values container_str v uos
  = ([], Ok (Nd (mk_array (dt_int U8) sh (map ubyte_of_bool bs))))
  /\ materialize_attr_values html5
       (Nd (mk_array (dt_int U8) sh (map ubyte_of_bool bs)))
     = ([], Ok (Array (mk_array (dt_int U8) sh (map ubyte_of_bool bs)))).
Proof.
  intros Hne Hv. split.
  - destruct Hv as [[-> ->] | [[-> ->] | ->]].
    + apply normalize_bool_array; [reflexivity|]. now apply np_array_bools.
    + apply normalize_bool_array; [reflexivity|]. now apply np_array_bools.
    + now apply normalize_bool_array.
  - now apply materialize_other_kind.
Qed.

(** *** Normalizing twice *)

Lemma normalize_complex (arr : ndarray) (uos : bool) :
  dtype_of arr = dt_complex ->
  normalize_attr_values container_str (Array arr) uos = ([], Ok (Nd arr)).
Proof.
  intros Hd. unfold normalize_attr_values, Array. cbn [np_isscalar].
  rewrite bind_ret. cbn [normalize_attr_array]. rewrite bind_lift_ok, Hd.
  reflexivity.
Qed.

Lemma normalize_bytes_array (arr : ndarray) :
  dtype_of arr = dt_bytes ->
  normalize_attr_values container_str (Array arr) false = ([], Ok (Nd arr)).
Proof.
  intros Hd. unfold normalize_attr_values, Array. cbn [np_isscalar].
  rewrite bind_ret. cbn [normalize_attr_array]. rewrite bind_lift_ok, Hd.
  cbn [issubdtype orb]. unfold normalize_attr_strings. rewrite Hd.
  reflexivity.
Qed.

Lemma normalize_canonical (r : ndarray) :
  canonical_dtype (dtype_of r) = true ->
  normalize_attr_values container_str (Array r) false = ([], Ok (Nd r)).
Proof.
  intros Hc. destruct (dtype_of r) eqn:Ed; try discriminate Hc.
  - apply normalize_numeric; [reflexivity | reflexivity |].
    unfold numeric. now rewrite Ed.
  - apply normalize_numeric; [reflexivity | reflexivity |].
    unfold numeric. now rewrite Ed.
  - now apply normalize_bytes_array.
Qed.

Lemma normalize_object_strings_again (ts : list text) :
  normalize_attr_values container_str
    (Array (mk_array dt_object [length ts] (map PyStr ts))) true
  = ([], Ok (Nd (mk_array dt_object [length ts] (map PyStr ts)))).
Proof.
  rewrite (@object_strings container_str
             (Array (mk_array dt_object [length ts] (map PyStr ts)))
             (Array (mk_array dt_object [length ts] (map PyStr ts)))
             (mk_array dt_object [length ts] (map PyStr ts))
             (map Np (map Scalar (map PyStr ts)))
             eq_refl eq_refl eq_refl eq_refl).
  cbn [np_isscalar Array]. rewrite !length_map, !map_map. reflexivity.
Qed.

(** X8.  The write path is idempotent on arrays: whatever array
    [normalize_attr_values] returns for a non-scalar input, normalizing that
    array again (with the same [use_object_strings]) returns it unchanged
    and logs nothing. *)
Theorem normalize_idempotent (a : value) (r : ndarray) (uos : bool) :
  np_isscalar a = false ->
  result (normalize_attr_values container_str a uos) = Ok (Nd r) ->
  normalize_attr_values container_str (Array r) uos = ([], Ok (Nd r)).
Proof.
  intros Hs. unfold normalize_attr_values at 1. rewrite Hs, bind_ret.
  destruct (normalize_attr_array a) as [arr|]; [|discriminate].
  rewrite bind_lift_ok.
  assert (Hstr : forall arr',
            text_or_object arr' = true ->
            result (arr0 <- (if uos
                             then elms <- lift (iter_value a) ;;
                                  lift (np_array_as dt_object
                                          (map (fun elm => PyStr (str container_str elm))
                                             elms))
                             else normalize_attr_strings container_str arr') ;;
                    ret (Nd arr0)) = Ok (Nd r) ->
            normalize_attr_values container_str (Array r) uos = ([], Ok (Nd r))).
  { intros arr' Hk. destruct uos.
    - destruct (iter_value a) as [elms|]; [|discriminate].
      rewrite bind_lift_ok, np_array_as_object, bind_lift_ok.
      cbn [result ret snd]. intros [= <-]. rewrite length_map.
      rewrite <- (length_map (str container_str) elms).
      rewrite <- (map_map (str container_str) PyStr).
      apply normalize_object_strings_again.
    - destruct (normalize_attr_strings container_str arr') as [l [r'|]] eqn:En;
        cbn; [|discriminate].
      intros [= <-]. apply normalize_canonical.
      eapply normalize_strings_dtype; [exact Hk | exact En]. }
  destruct (dtype_of arr) eqn:Ed; cbn [issubdtype orb].
  - (* bool *) rewrite !bind_ret. cbn [result ret snd]. intros [= <-].
    apply normalize_numeric; reflexivity.
  - (* integer *) rewrite !bind_ret. cbn [result ret snd]. intros [= <-].
    apply normalize_numeric; [reflexivity | reflexivity |].
    unfold numeric. now rewrite Ed.
  - (* floating *) rewrite !bind_ret. cbn [result ret snd]. intros [= <-].
    apply normalize_numeric; [reflexivity | reflexivity |].
    unfold numeric. now rewrite Ed.
  - (* complex *) rewrite !bind_ret. cbn [result ret snd]. intros [= <-].
    now apply normalize_complex.
  - (* 'S' *) apply Hstr. unfold text_or_object. now rewrite Ed.
  - (* 'U' *) apply Hstr. unfold text_or_object. now rewrite Ed.
  - (* object *) apply Hstr. unfold text_or_object. now rewrite Ed.
Qed.

(** *** Log records *)

Lemma logs_bind {A B} (m : M A) (k : A -> M B) :
  logs (bind m k)
  = (logs m ++ match result m with
               | Ok a => logs (k a)
               | Raise _ => []
               end)%list.
Proof.
  destruct m as [l [a|e]]; cbn.
  - now destruct (k a).
  - now rewrite app_nil_r.
Qed.

Lemma logs_lift {A} (r : res A) : logs (lift r) = [].
Proof. reflexivity. Qed.

Lemma fallback_logs (a : ndarray) : logs (fallback a) = [].
Proof.
  unfold fallback. rewrite logs_bind, logs_lift. cbn [app result lift snd].
  destruct (getitem0 a) as [[[]|]|]; reflexivity.
Qed.

Lemma try_except_logs {A} (m h : M A) :
  logs m = [] -> logs h = [] -> logs (try_except m h) = [].
Proof.
  destruct m as [l [a|e]]; cbn; intros -> Hh; [reflexivity|].
  destruct h as [l' r]. cbn in Hh |- *. exact Hh.
Qed.

Lemma materialize_logs (v : npval) : logs (materialize_attr_values html5 v) = [].
Proof.
  unfold materialize_attr_values.
  rewrite logs_bind.
  assert (H1 : forall m : M ndarray,
            m = (if np_isscalar (Np v) then lift (wrap_scalar (Np v))
                 else match v with
                      | Nd x => ret x
                      | Scalar _ => raise AttributeError
                      end) -> logs m = []).
  { intros m ->. destruct (np_isscalar (Np v)); [reflexivity|].
    destruct v; reflexivity. }
  rewrite (H1 _ eq_refl). cbn [app].
  match goal with |- match result ?m with _ => _ end = _ => destruct (result m) as [a|] end;
    [|reflexivity].
  rewrite logs_bind.
  assert (H2 : logs (if issubdtype (dtype_of a) np_string_
                        || issubdtype (dtype_of a) np_object_
                     then temp <- (if hasattr_decode a
                                   then xs <- lift (iter_array a) ;;
                                        ds <- lift (map_res decode_ignore xs) ;;
                                        lift (np_array ds)
                                   else ret a) ;;
                          try_except (unescape_step html5 temp) (fallback a)
                     else if issubdtype (dtype_of a) np_str_
                             || issubdtype (dtype_of a) np_unicode_
                     then ts <- lift (astype dt_str a) ;;
                          ret (RArray (mk_array dt_object (shape ts)
                                         (map to_python (data ts))))
                     else ret (RArray a)) = []).
  { destruct (issubdtype (dtype_of a) np_string_
              || issubdtype (dtype_of a) np_object_).
    - cbn [hasattr_decode]. rewrite bind_ret.
      apply try_except_logs; [apply unescape_step_logs | apply fallback_logs].
    - destruct (issubdtype (dtype_of a) np_str_
                || issubdtype (dtype_of a) np_unicode_); [|reflexivity].
      rewrite logs_bind, logs_lift. cbn [app result lift snd].
      destruct (astype dt_str a); reflexivity. }
  rewrite H2. cbn [app].
  match goal with |- match result ?m with _ => _ end = _ => destruct (result m) as [r|] end;
    [|reflexivity].
  destruct (np_isscalar (Np v)); [|reflexivity].
  rewrite logs_bind, logs_lift. cbn [app result lift snd].
  destruct (subscript0 r); reflexivity.
Qed.

Lemma encode_logs (xs : list npval) :
  logs (bs <- lift (map_res encode_xml xs) ;; lift (np_array bs)) = [].
Proof.
  rewrite logs_bind, logs_lift. cbn [app result lift snd].
  destruct (map_res encode_xml xs); reflexivity.
Qed.

(** The Text Encoder logs on line 19 only. *)
Lemma strings_logs (arr : ndarray) :
  logs (normalize_attr_strings container_str arr) = []
  \/ (dtype_of arr = dt_object
      /\ exists xs, iter_array arr = Ok xs /\ mixed xs = true
                    /\ logs (normalize_attr_strings container_str arr)
                       = [Debug (mixed_types_message container_str xs)]).
Proof.
  unfold normalize_attr_strings.
  destruct (dtype_of arr) eqn:Ed; cbn [issubdtype orb]; try (left; reflexivity).
  - (* 'U' *)
    left. rewrite logs_bind, logs_lift. cbn [app result lift snd].
    destruct (iter_array arr) as [xs|]; [|reflexivity]. apply encode_logs.
  - (* object *)
    destruct (iter_array arr) as [xs|] eqn:Ei; [|left; reflexivity].
    rewrite bind_lift_ok.
    destruct (forallb (fun x => type_is x ty_str || type_is x ty_np_str_
                                || type_is x ty_np_unicode_) xs) eqn:E1;
      [left; apply encode_logs|].
    destruct (forallb (fun x => type_is x ty_np_string_) xs
              || forallb (fun x => type_is x ty_np_bytes_) xs) eqn:E2;
      [left; reflexivity|].
    right. split; [reflexivity|]. exists xs. split; [reflexivity|].
    split; [unfold mixed, all_str, all_np_bytes; now rewrite E1, E2|].
    rewrite logs_bind. cbn [logging_debug logs fst result snd].
    rewrite logs_lift. reflexivity.
Qed.

Lemma wrap_stage (a : value) :
  (if np_isscalar a then x <- lift (wrap_scalar a) ;; ret (Array x) else ret a)
  = lift (wrapped a).
Proof.
  unfold wrapped. destruct (np_isscalar a); [|reflexivity].
  destruct (wrap_scalar a); reflexivity.
Qed.

(** X9.  Logging: the read path never logs; the write path logs at most one
    DEBUG record, and it does so only without [use_object_strings], for a
    (scalar-wrapped) input whose coerced array is of object kind with
    elements that are neither all text nor all [np.bytes_]. *)
Theorem logging_sites (a : value) (uos : bool) (v : npval) :
  logs (materialize_attr_values html5 v) = []
  /\ (logs (normalize_attr_values container_str a uos) = []
      \/ (uos = false
          /\ exists a' arr xs,
               wrapped a = Ok a'
               /\ normalize_attr_array a' = Ok arr
               /\ dtype_of arr = dt_object
               /\ iter_array arr = Ok xs
               /\ mixed xs = true
               /\ logs (normalize_attr_values container_str a uos)
                  = [Debug (mixed_types_message container_str xs)])).
Proof.
  split; [apply materialize_logs|].
  unfold normalize_attr_values. rewrite wrap_stage.
  destruct (wrapped a) as [a'|] eqn:Ew; [|left; reflexivity].
  rewrite bind_lift_ok.
  destruct (normalize_attr_array a') as [arr|] eqn:Ea; [|left; reflexivity].
  rewrite bind_lift_ok, logs_bind.
  assert (HT : forall rc : res ndarray,
            match rc with
            | Ok arr0 => logs (if np_isscalar a then lift (getitem0 arr0)
                               else ret (Nd arr0))
            | Raise _ => []
            end = []).
  { intros [arr0|e]; [|reflexivity]. destruct (np_isscalar a); reflexivity. }
  rewrite HT, app_nil_r. clear HT.
  destruct (issubdtype (dtype_of arr) np_integer
            || issubdtype (dtype_of arr) np_floating); [left; reflexivity|].
  destruct (issubdtype (dtype_of arr) np_character
            || issubdtype (dtype_of arr) np_object_).
  2:{ left. destruct (issubdtype (dtype_of arr) np_bool_); reflexivity. }
  destruct uos.
  { left. rewrite logs_bind, logs_lift. cbn [app result lift snd].
    destruct (iter_value a') as [elms|]; reflexivity. }
  destruct (strings_logs arr) as [Hl | (Hd & xs & Hi & Hm & Hl)];
    [left; exact Hl|].
  right. split; [reflexivity|]. exists a', arr, xs. repeat split; auto.
Qed.

(** *** Exceptions *)













(** *** Shapes of text arrays *)

Lemma normalize_text_array (a : ndarray) (e : exn) :
  dtype_of a = dt_str ->
  iter_array a = Raise e \/
  (exists xs, iter_array a = Ok xs /\ map_res encode_xml xs = Raise e) ->
  normalize_attr_values container_str (Array a) false = ([], Raise e).
Proof.
  intros Hd H. unfold normalize_attr_values, Array. cbn [np_isscalar].
  rewrite bind_ret. cbn [normalize_attr_array]. rewrite bind_lift_ok, Hd.
  cbn [issubdtype orb]. unfold normalize_attr_strings. rewrite Hd.
  cbn [issubdtype orb].
  destruct H as [-> | (xs & -> & Hx)]; [reflexivity|].
  rewrite bind_lift_ok, Hx. reflexivity.
Qed.

(** X11.  Only one-dimensional arrays of native text are encoded: for an
    array of kind 'U' the write path raises TypeError when the array has no
    axis (a 0-d array cannot be iterated) and AttributeError when it has two
    axes or more and a first axis that is not empty (a loop over it yields
    sub-arrays, which have no [encode]). *)
Theorem text_array_axes (a : ndarray) (sh : list nat) :
  dtype_of a = dt_str ->
  shape a = sh ->
  (sh = [] ->
   normalize_attr_values container_str (Array a) false = ([], Raise TypeError))
  /\ (forall n m sh', sh = S n :: m :: sh' ->
      normalize_attr_values container_str (Array a) false
      = ([], Raise AttributeError)).
Proof.
  intros Hd Hs. split.
  - intros ->. apply normalize_text_array; [exact Hd|]. left.
    unfold iter_array. now rewrite Hs.
  - intros n m sh' ->. apply normalize_text_array; [exact Hd|]. right.
    unfold iter_array. rewrite Hs. eexists. split; [reflexivity|].
    reflexivity.
Qed.

Lemma iter_empty (a : ndarray) (sh : list nat) :
  shape a = 0%nat :: sh -> wf_array a = true -> iter_array a = Ok [].
Proof.
  intros Hs Hw. unfold iter_array. rewrite Hs.
  destruct sh as [|k sh']; [|reflexivity].
  unfold wf_array in Hw. rewrite Hs in Hw. apply andb_prop in Hw as [Hl _].
  apply Nat.eqb_eq in Hl. cbn in Hl.
  destruct (data a); [reflexivity|discriminate Hl].
Qed.

(** X12.  Empty text loses its kind: a well-formed array of kind 'U' or of
    object kind whose first axis is empty (whatever its other axes) is
    normalized to the empty one-dimensional float64 array that
    [np.array([])] is, and the read path returns that float64 array. *)
Theorem empty_text_is_float (a : ndarray) (sh : list nat) :
  dtype_of a = dt_str \/ dtype_of a = dt_object ->
  shape a = 0%nat :: sh ->
  wf_array a = true ->
  normalize_attr_values container_str (Array a) false = ([], Ok (Nd empty_float))
  /\ materialize_attr_values html5 (Nd empty_float) = ([], Ok (Array empty_float)).
Proof.
  intros Hd Hs Hw. split; [|reflexivity].
  unfold normalize_attr_values, Array. cbn [np_isscalar].
  rewrite bind_ret. cbn [normalize_attr_array]. rewrite bind_lift_ok.
  unfold normalize_attr_strings. rewrite (iter_empty a Hs Hw).
  destruct Hd as [-> | ->]; reflexivity.
Qed.

(** *** Byte strings among objects *)




Lemma bytes_repr_chars (b : bytes) :
  ascii_text (bytes_repr b) = true /\ ends_with_nul (bytes_repr b) = false.
Proof.
  assert (HQ : forall q : N, q = 34%N \/ q = 39%N ->
            let r := (98 :: q :: flat_map
                        (fun c : N =>
                           if (c =? q)%N || (c =? 92)%N then [92; c]%N
                           else if (c =? 9)%N then [92; 116]%N
                           else if (c =? 10)%N then [92; 110]%N
                           else if (c =? 13)%N then [92; 114]%N
                           else if (c <? 32)%N || (127 <=? c)%N
                                then [92; 120; hex_digit (c / 16);
                                      hex_digit (c mod 16)]%N
                           else [c]) (map Byte.to_N b) ++ [q])%N%list in
            ascii_text r = true /\ ends_with_nul r = false).
  { intros q Hq r. subst r. split.
    - unfold ascii_text. cbn [forallb]. rewrite forallb_app.
      assert (Ha : is_ascii q = true) by (destruct Hq as [-> | ->]; reflexivity).
      cbn [forallb]. rewrite Ha, !andb_true_r.
      change (is_ascii 98) with true. cbn [andb].
      induction b as [|a b IH]; [reflexivity|].
      cbn [map flat_map]. rewrite forallb_app, IH, andb_true_r.
      destruct Hq as [-> | ->]; destruct a; reflexivity.
    - unfold ends_with_nul.
      match goal with
      | |- context [last (?x :: ?y :: ?l ++ [q])%list] =>
          change (x :: y :: l ++ [q])%list with ((x :: y :: l) ++ [q])%list
      end.
      rewrite last_last. destruct Hq as [-> | ->]; reflexivity. }
  unfold bytes_repr. cbv zeta. apply HQ.
  destruct (existsb _ _ && negb _); auto.
Qed.

Lemma astype_bytes_cells (bs : list bytes) :
  map_res (setitem dt_bytes) (map NpBytes bs)
  = Ok (map (fun b => NpBytes (strip_bytes b)) bs).
Proof.
  rewrite (map_res_ok _ (fun o => match o with
                                  | NpBytes b => NpBytes (strip_bytes b)
                                  | _ => o
                                  end)).
  - now rewrite map_map.
  - apply Forall_forall. intros o Ho.
    apply in_map_iff in Ho as (b & <- & _). reflexivity.
Qed.

(** X13.  Byte strings in an object array: a non-empty object array whose
    elements are all [np.bytes_] is stored as the byte-string array of these
    elements and nothing is logged; one whose elements are all Python
    [bytes] takes the branch of line 18 instead: a DEBUG record is logged
    and what is stored is the text of each [repr], [b'...'] with its prefix
    and quotes, not the bytes. *)
Theorem byte_objects (bs : list bytes) :
  bs <> [] ->
  normalize_attr_values container_str
    (Array (mk_array dt_object [length bs] (map NpBytes bs))) false
  = ([], Ok (Nd (mk_array dt_bytes [length bs]
                   (map (fun b => NpBytes (strip_bytes b)) bs))))
  /\ normalize_attr_values container_str
       (Array (mk_array dt_object [length bs] (map PyBytes bs))) false
     = ([Debug (mixed_types_message container_str (map Scalar (map PyBytes bs)))],
        Ok (Nd (mk_array dt_bytes [length bs]
                  (map (fun b => NpBytes (map byte_of (bytes_repr b))) bs)))).
Proof.
  intros Hne. split.
  - unfold normalize_attr_values, Array. cbn [np_isscalar]. rewrite bind_ret.
    cbn [normalize_attr_array]. rewrite bind_lift_ok.
    cbn [dtype_of issubdtype orb]. unfold normalize_attr_strings.
    cbn [dtype_of issubdtype orb iter_array shape data]. rewrite bind_lift_ok.
    assert (E1 : forallb (fun x => type_is x ty_str || type_is x ty_np_str_
                                   || type_is x ty_np_unicode_)
                   (map Scalar (map NpBytes bs)) = false)
      by (destruct bs; [congruence | reflexivity]).
    assert (E2 : forallb (fun x => type_is x ty_np_string_)
                   (map Scalar (map NpBytes bs)) = true)
      by (clear; induction bs; cbn; auto).
    rewrite E1, E2. cbn [orb]. unfold astype. cbn [data shape].
    rewrite astype_bytes_cells. reflexivity.
  - unfold normalize_attr_values, Array. cbn [np_isscalar]. rewrite bind_ret.
    cbn [normalize_attr_array]. rewrite bind_lift_ok.
    cbn [dtype_of issubdtype orb]. unfold normalize_attr_strings.
    cbn [dtype_of issubdtype orb iter_array shape data]. rewrite bind_lift_ok.
    assert (E1 : forallb (fun x => type_is x ty_str || type_is x ty_np_str_
                                   || type_is x ty_np_unicode_)
                   (map Scalar (map PyBytes bs)) = false)
      by (destruct bs; [congruence | reflexivity]).
    assert (E2 : forallb (fun x => type_is x ty_np_string_)
                   (map Scalar (map PyBytes bs)) = false)
      by (destruct bs; [congruence | reflexivity]).
    assert (E3 : forallb (fun x => type_is x ty_np_bytes_)
                   (map Scalar (map PyBytes bs)) = false)
      by (destruct bs; [congruence | reflexivity]).
    rewrite E1, E2, E3. cbn [orb].
    unfold np_array_as. rewrite !map_map. cbn [str py_str].
    rewrite <- (map_map bytes_repr PyStr).
    rewrite setitem_ascii_strs.
    2:{ apply Forall_forall. intros s Hs. apply in_map_iff in Hs as (b & <- & _).
        apply bytes_repr_chars. }
    rewrite !length_map, map_map.
    assert (Em : map (fun x => NpBytes (strip_bytes (encode_xmlcharrefreplace
                                                       (bytes_repr x)))) bs
                 = map (fun b => NpBytes (map byte_of (bytes_repr b))) bs).
    { apply map_ext. intros b. destruct (bytes_repr_chars b) as [Ha Hn].
      now rewrite strip_bytes_escaped, encode_xml_ascii. }
    rewrite Em. reflexivity.
Qed.

(** *** Integers beyond 64 bits *)



(** *** Scalars of text *)



(** *** Byte strings on more than one axis *)

Lemma chunks_length {A} (n k : nat) (l : list A) : length (chunks n k l) = n.
Proof. revert l. induction n as [|n IH]; intros l; cbn; [reflexivity | now rewrite IH]. Qed.

Lemma chunks_concat {A} (n k : nat) (l : list A) :
  length l = (n * k)%nat -> concat (chunks n k l) = l.
Proof.
  revert l. induction n as [|n IH]; intros l Hl; cbn [chunks concat].
  - destruct l; [reflexivity | discriminate Hl].
  - rewrite IH; [apply firstn_skipn|]. rewrite length_skipn, Hl. cbn. lia.
Qed.

Lemma flat_map_rows (d : dtype) (sh : list nat) (g : pyobj -> pyobj)
    (cs : list (list pyobj)) :
  flat_map (fun x => match x with
                     | Nd a => map g (data a)
                     | Scalar o => [o]
                     end) (map (fun c => Nd (mk_array d sh c)) cs)
  = map g (concat cs).
Proof.
  induction cs as [|c cs IH]; [reflexivity|].
  cbn [map flat_map concat data]. now rewrite IH, map_app.
Qed.

Lemma rows_unescaped (d : dtype) (sh : list nat) (cs : list (list pyobj)) :
  existsb amp_text (concat cs) = false ->
  map_res (html_unescape html5) (map (fun c => Nd (mk_array d sh c)) cs)
  = Ok (map (fun c => Nd (mk_array d sh c)) cs).
Proof.
  induction cs as [|c cs IH]; [reflexivity|].
  cbn [concat]. rewrite existsb_app. intros H.
  apply orb_false_elim in H as [Hc Hcs].
  cbn [map map_res html_unescape data]. unfold amp_text in Hc.
  rewrite Hc, (IH Hcs). reflexivity.
Qed.

Lemma rows_rejected (d : dtype) (sh : list nat) (cs : list (list pyobj)) :
  existsb amp_text (concat cs) = true ->
  map_res (html_unescape html5) (map (fun c => Nd (mk_array d sh c)) cs)
  = Raise TypeError.
Proof.
  induction cs as [|c cs IH]; [discriminate|].
  cbn [concat]. rewrite existsb_app. intros H.
  cbn [map map_res html_unescape data]. unfold amp_text in H |- *.
  destruct (existsb _ c); [reflexivity|]. cbn [orb] in H.
  now rewrite (IH H).
Qed.

(** X17.  Byte strings on two axes or more are not unescaped: for a
    well-formed array of byte strings with two or more axes and a first axis
    that is not empty, the read path returns the object array of the same
    shape that holds the decoded texts as they are stored, character
    references included, when every byte is 7-bit ASCII and no element is
    the text ["&"]; in every other case it returns [None]. *)
Theorem byte_matrix_read (a : ndarray) (n m : nat) (sh : list nat) :
  dtype_of a = dt_bytes ->
  shape a = S n :: m :: sh ->
  wf_array a = true ->
  materialize_attr_values html5 (Nd a)
  = ([], Ok (if forallb ascii_cell (data a)
                && negb (existsb amp_text (map stored_text (data a)))
             then Array (mk_array dt_object (shape a)
                           (map (fun o => to_python (stored_text o)) (data a)))
             else Obj PyNone)).
Proof.
  intros Hd Hs Hw.
  assert (Hk : bytes_or_object a = true)
    by (unfold bytes_or_object; now rewrite Hd).
  rewrite (@materialize_unfold html5 (Nd a) a eq_refl Hk).
  pose proof Hw as Hw'. unfold wf_array in Hw'. rewrite Hd in Hw'.
  apply andb_prop in Hw' as [Hl Hc]. apply Nat.eqb_eq in Hl.
  assert (Hf : fallback a = ([], Ok RNone)).
  { unfold fallback, getitem0, iter_array. rewrite Hs. reflexivity. }
  destruct (forallb ascii_cell (data a)) eqn:Ha; cbn [andb].
  2:{ assert (Hr : unescape_step html5 a = ([], Raise UnicodeDecodeError)).
      { unfold unescape_step, astype. now rewrite (astype_str_raises _ Hc Ha). }
      rewrite try_fallback by (now rewrite Hr). rewrite Hf. reflexivity. }
  assert (Hu : unescape_step html5 a
               = (xs <- lift (Ok (map (fun c => Nd (mk_array dt_str (m :: sh) c))
                                    (chunks (S n) (size_of (m :: sh))
                                       (map stored_text (data a))))) ;;
                  us <- lift (map_res (html_unescape html5) xs) ;;
                  ret (RArray (stack_objects us)))).
  { unfold unescape_step, astype. rewrite (astype_str_cells _ Hc Ha).
    cbn [res_bind]. rewrite bind_lift_ok. unfold iter_array.
    cbn [shape data dtype_of]. rewrite Hs. reflexivity. }
  rewrite Hu, bind_lift_ok. clear Hu.
  assert (Hcat : concat (chunks (S n) (size_of (m :: sh))
                           (map stored_text (data a)))
                 = map stored_text (data a)).
  { apply chunks_concat. rewrite length_map, Hl, Hs. reflexivity. }
  destruct (existsb amp_text (map stored_text (data a))) eqn:He; cbn [negb].
  - rewrite rows_rejected by (now rewrite Hcat).
    rewrite Hf. reflexivity.
  - rewrite rows_unescaped by (now rewrite Hcat).
    rewrite bind_lift_ok.
    assert (Hst : stack_objects
                    (map (fun c => Nd (mk_array dt_str (m :: sh) c))
                       (chunks (S n) (size_of (m :: sh))
                          (map stored_text (data a))))
                  = mk_array dt_object (shape a)
                      (map (fun o => to_python (stored_text o)) (data a))).
    { unfold stack_objects.
      rewrite (flat_map_rows dt_str (m :: sh) to_python), Hcat, map_map.
      rewrite length_map, chunks_length, Hs. reflexivity. }
    rewrite Hst. reflexivity.
Qed.

(** *** Mixed objects that are not ASCII *)



End Extras.

(** *** Instances *)

Lemma text_encoder_total_witness :
  Forall (fun s => ends_with_nul s = false) [zoe_euro]
  /\ normalize_attr_values no_container_str (PyList (map PyStr [zoe_euro])) false
     = ([], Ok (Nd (mk_array dt_bytes [1%nat]
                      [NpBytes (bts "Zo&#235; &#8364;")]))).
Proof.
  assert (H : Forall (fun s => ends_with_nul s = false) [zoe_euro])
    by (repeat constructor).
  split; [exact H|].
  exact (proj1 (@text_encoder_total no_container_str [zoe_euro] _
                  (seq_list [zoe_euro]) ltac:(discriminate) H)).
Defined.

Lemma roundtrip_escaped_witness :
  Forall (fun s => has_amp s = false /\ ends_with_nul s = false)
    [zoe_euro; next_line]
  /\ roundtrip_holds no_container_str html5_common [zoe_euro]
       (PyList (map PyStr [zoe_euro]))
  /\ ~ roundtrip_holds no_container_str html5_common [next_line]
         (PyList (map PyStr [next_line])).
Proof.
  split; [repeat constructor|]. split.
  - apply (@roundtrip_escaped no_container_str html5_common [zoe_euro] _
             (seq_list [zoe_euro])); repeat constructor.
  - intros H.
    apply (@roundtrip_escaped no_container_str html5_common [next_line] _
             (seq_list [next_line])) in H; [|repeat constructor].
    inversion H as [|? ? Hs _]. discriminate Hs.
Defined.




Lemma numeric_roundtrip_witness :
  numeric a23 = true
  /\ normalize_attr_values no_container_str (Array a23) true = ([], Ok (Nd a23))
  /\ materialize_attr_values html5_common (Nd a23) = ([], Ok (Array a23)).
Proof.
  split; [reflexivity|].
  exact (@numeric_roundtrip no_container_str html5_common a23 true eq_refl).
Defined.

Lemma booleans_as_bytes_witness :
  true_false <> []
  /\ normalize_attr_values no_container_str (PyList (map PyBool true_false)) false
     = ([], Ok (Nd (mk_array (dt_int U8) [2%nat] [NpInt U8 1; NpInt U8 0])))
  /\ materialize_attr_values html5_common
       (Nd (mk_array (dt_int U8) [2%nat] [NpInt U8 1; NpInt U8 0]))
     = ([], Ok (Array (mk_array (dt_int U8) [2%nat] [NpInt U8 1; NpInt U8 0]))).
Proof.
  split; [discriminate|].
  exact (@booleans_as_bytes no_container_str html5_common true_false [2%nat]
           (PyList (map PyBool true_false)) false ltac:(discriminate)
           (or_introl (conj eq_refl eq_refl))).
Defined.

Lemma normalize_idempotent_witness :
  np_isscalar a_none = false
  /\ result (normalize_attr_values no_container_str a_none false)
     = Ok (Nd (mk_array dt_bytes [2%nat] [NpBytes (bts "a"); NpBytes (bts "None")]))
  /\ normalize_attr_values no_container_str
       (Array (mk_array dt_bytes [2%nat] [NpBytes (bts "a"); NpBytes (bts "None")]))
       false
     = ([], Ok (Nd (mk_array dt_bytes [2%nat]
                      [NpBytes (bts "a"); NpBytes (bts "None")]))).
Proof.
  split; [reflexivity|]. split; [reflexivity|].
  exact (@normalize_idempotent no_container_str a_none _ false eq_refl eq_refl).
Defined.


Lemma text_array_axes_witness :
  dtype_of u22 = dt_str /\ shape u22 = [2; 2]%nat
  /\ normalize_attr_values no_container_str (Array u22) false
     = ([], Raise AttributeError).
Proof.
  split; [reflexivity|]. split; [reflexivity|].
  exact (proj2 (@text_array_axes no_container_str u22 [2; 2]%nat eq_refl eq_refl)
           1%nat 2%nat [] eq_refl).
Defined.

Lemma empty_text_is_float_witness :
  wf_array u03 = true
  /\ normalize_attr_values no_container_str (Array u03) false
     = ([], Ok (Nd empty_float)).
Proof.
  split; [reflexivity|].
  exact (proj1 (@empty_text_is_float no_container_str html5_common u03 [3%nat]
                  (or_introl eq_refl) eq_refl eq_refl)).
Defined.

Lemma byte_objects_witness :
  [bts "it's"] <> []
  /\ normalize_attr_values no_container_str
       (Array (mk_array dt_object [1%nat] [PyBytes (bts "it's")])) false
     = ([Debug (mixed_types_message no_container_str
                  [Scalar (PyBytes (bts "it's"))])],
        Ok (Nd (mk_array dt_bytes [1%nat]
                  [NpBytes [x62; x22; x69; x74; x27; x73; x22]]))).
Proof.
  split; [discriminate|].
  exact (proj2 (@byte_objects no_container_str [bts "it's"] ltac:(discriminate))).
Defined.




Lemma byte_matrix_read_witness :
  wf_array lt_b_row = true
  /\ materialize_attr_values html5_common (Nd lt_b_row)
     = ([], Ok (Array (mk_array dt_object [1; 2]%nat
                         [PyStr (txt "&lt;"); PyStr (txt "b")]))).
Proof.
  split; [reflexivity|].
  exact (@byte_matrix_read html5_common lt_b_row 0%nat 2%nat []
           eq_refl eq_refl eq_refl).
Defined.

